(** * Enterprise demo backend: the gateway of [backend/app/main.py]

    A shallow embedding of the FastAPI application: the pydantic models of
    [app/models.py], the route handlers of [app/main.py] and the part of the
    [requests] library and of FastAPI's dispatch that the handlers rely on.

    Handlers are state-passing computations that may raise: the state holds
    the process-wide [users_db], the list of HTTP requests sent to the data
    service so far and the wall clock. *)

From Stdlib Require Import ZArith String.
From Stdlib Require Import Floats.SpecFloat.
From stdpp Require Import base strings gmap pretty.

Open Scope Z_scope.

Set Warnings "-clear-no-such-hyp".

(** ** Python values *)

(** A Python [float]: an IEEE 754 datum (sign, mantissa, exponent), signed
    zeros, infinities and NaN. *)
Definition float := spec_float.

(** What [response.json()] and [model.dict()] yield. *)
#[warnings="-register-all"] Inductive json :=
| JNull
| JBool (b : bool)
| JInt (n : Z)
| JFloat (x : float)
| JStr (s : string)
| JList (l : list json)
| JDict (m : gmap string json).

(** Python truthiness, [bool(x)], as used by [if x:]. *)
Class Truthy (A : Type) := truthy : A -> bool.

#[export] Instance str_truthy : Truthy string :=
  fun s => match s with EmptyString => false | String _ _ => true end.

(** [bool(x)] on a float is [x != 0.0]: both zeros are falsy, NaN is truthy. *)
#[export] Instance float_truthy : Truthy float :=
  fun x => match x with S754_zero _ => false | _ => true end.

(** [None] is falsy; [Optional[T]] otherwise defers to [T]. *)
#[export] Instance optional_truthy {A} `{Truthy A} : Truthy (option A) :=
  fun o => match o with None => false | Some a => truthy a end.

(** [f"{x}"] for the values the handlers interpolate. *)
Class Format (A : Type) := format : A -> string.

#[export] Instance str_format : Format string := fun s => s.
#[export] Instance int_format : Format Z := fun n => pretty n.
#[export] Instance optional_format {A} `{Format A} : Format (option A) :=
  fun o => match o with None => "None" | Some a => format a end.

(** ** app/models.py *)

Module models.

(** [ProductBase] and [ProductCreate(ProductBase)]. *)
Record ProductCreate := {
  pc_name : string;
  pc_description : string;
  pc_price : float;            (* Field(gt=0) *)
  pc_stock_quantity : Z;       (* Field(ge=0) *)
  pc_category : string
}.

(** [ProductUpdate]: every field optional with default [None].  A pydantic
    instance also records which fields the input gave a value for
    ([__fields_set__]); a field given as [null] is set, with value [None]. *)
Record ProductUpdate := {
  pu_name : option string;
  pu_description : option string;
  pu_price : option float;
  pu_stock_quantity : option Z;
  pu_category : option string;
  pu_fields_set : gset string
}.

(** [UserCreate(UserBase)]. *)
Record UserCreate := {
  uc_username : string;
  uc_email : string;
  uc_password : string
}.

(** [UserResponse(UserBase)]. *)
Record UserResponse := {
  ur_username : string;
  ur_email : string;
  ur_disabled : bool
}.

Definition opt_json {A} (f : A -> json) (o : option A) : json :=
  match o with None => JNull | Some a => f a end.

(** [product.dict()] on a [ProductCreate]. *)
Definition ProductCreate_dict (p : ProductCreate) : gmap string json :=
  {[ "name" := JStr (pc_name p);
     "description" := JStr (pc_description p);
     "price" := JFloat (pc_price p);
     "stock_quantity" := JInt (pc_stock_quantity p);
     "category" := JStr (pc_category p) ]}.

(** [product.dict()] on a [ProductUpdate]: all five fields. *)
Definition ProductUpdate_dict (p : ProductUpdate) : gmap string json :=
  {[ "name" := opt_json JStr (pu_name p);
     "description" := opt_json JStr (pu_description p);
     "price" := opt_json JFloat (pu_price p);
     "stock_quantity" := opt_json JInt (pu_stock_quantity p);
     "category" := opt_json JStr (pu_category p) ]}.

(** [product.dict(exclude_unset=True)]: the fields of [dict()] that are in
    [__fields_set__]. *)
Definition ProductUpdate_dict_exclude_unset (p : ProductUpdate)
  : gmap string json :=
  filter (fun kv => kv.1 ∈ pu_fields_set p) (ProductUpdate_dict p).

(** The field names of [ProductUpdate]. *)
Definition ProductUpdate_fields : gset string :=
  {[ "name"; "description"; "price"; "stock_quantity"; "category" ]}.

(** How pydantic builds a [ProductUpdate] from a request body: per field,
    either the body has no such key, or it gives a value ([None] for an
    explicit [null]). *)
Inductive given (A : Type) := Unset | Given (v : option A).
Arguments Unset {A}.
Arguments Given {A} v.

Definition given_value {A} (g : given A) : option A :=
  match g with Unset => None | Given v => v end.

Definition given_key {A} (k : string) (g : given A) : gset string :=
  match g with Unset => ∅ | Given _ => {[ k ]} end.

Definition ProductUpdate_parse
    (name description : given string) (price : given float)
    (stock_quantity : given Z) (category : given string) : ProductUpdate :=
  {| pu_name := given_value name;
     pu_description := given_value description;
     pu_price := given_value price;
     pu_stock_quantity := given_value stock_quantity;
     pu_category := given_value category;
     pu_fields_set :=
       given_key "name" name ∪ given_key "description" description ∪
       given_key "price" price ∪ given_key "stock_quantity" stock_quantity ∪
       given_key "category" category |}.

End models.
Export models.

(** ** Exceptions, state and the handler monad *)

(** The exception classes the handlers tell apart. *)
Inductive exn :=
| RequestException (msg : string)
    (* requests.RequestException and its subclasses: ConnectionError,
       Timeout, HTTPError, ... *)
| HTTPException (status_code : Z) (detail : string)
                (headers : list (string * string))
    (* fastapi.HTTPException *)
| Exception (msg : string).
    (* any other Exception *)

(** [str(e)]. *)
Definition str_exn (e : exn) : string :=
  match e with
  | RequestException msg => msg
  | HTTPException _ detail _ => detail
  | Exception msg => msg
  end.

Inductive result (A : Type) :=
| Return (a : A)
| Raise (e : exn).
Arguments Return {A} a.
Arguments Raise {A} e.

#[export] Instance result_fmap : FMap result := fun A B f r =>
  match r with Return a => Return (f a) | Raise e => Raise e end.

Inductive Method := GET | POST | PUT | DELETE.

(** A call of [requests.get/post/put/delete]. *)
Record Request := {
  req_method : Method;
  req_url : string;
  req_json : option (gmap string json)
}.

(** A [requests.Response], as far as the handlers look at it. *)
Record Response := {
  status_code : Z;
  reason : string;
  resp_url : string;
  resp_json : result json      (* what [response.json()] does *)
}.

(** A row of [users_db]: the dict stored by [register_user]. *)
Record UserRow := {
  username : string;
  email : string;
  hashed_password : string;
  disabled : bool
}.

Record State := {
  users_db : gmap string UserRow;
  sent : list Request;           (* upstream calls made so far, oldest first *)
  clock : Z                      (* current time, seconds *)
}.

Definition M (A : Type) : Type := State -> result A * State.

#[export] Instance M_ret : MRet M := fun A a st => (Return a, st).

#[export] Instance M_bind : MBind M := fun A B k m st =>
  match m st with
  | (Return a, st') => k a st'
  | (Raise e, st') => (Raise e, st')
  end.

Definition raise {A} (e : exn) : M A := fun st => (Raise e, st).

(** A pure step that may raise, run inside a handler. *)
Definition lift {A} (r : result A) : M A := fun st => (r, st).

(** [try: body except requests.RequestException as e: handler(e)]. *)
Definition try_except_RequestException {A}
    (body : M A) (handler : exn -> M A) : M A :=
  fun st =>
    match body st with
    | (Raise (RequestException msg), st') => handler (RequestException msg) st'
    | other => other
    end.

(** [try: body except Exception as e: handler(e)]. *)
Definition try_except_Exception {A} (body : M A) (handler : exn -> M A) : M A :=
  fun st =>
    match body st with
    | (Raise e, st') => handler e st'
    | other => other
    end.

(** [response.raise_for_status()] of the requests library: an [HTTPError]
    (a [RequestException]) for a 4xx or 5xx status, nothing otherwise. *)
Definition raise_for_status (response : Response) : result unit :=
  if (400 <=? status_code response) && (status_code response <? 500) then
    Raise (RequestException
             (format (status_code response) +:+ " Client Error: " +:+
              reason response +:+ " for url: " +:+ resp_url response))
  else if (500 <=? status_code response) && (status_code response <? 600) then
    Raise (RequestException
             (format (status_code response) +:+ " Server Error: " +:+
              reason response +:+ " for url: " +:+ resp_url response))
  else Return tt.

Definition HTTP_200_OK : Z := 200.
Definition HTTP_201_CREATED : Z := 201.
Definition HTTP_204_NO_CONTENT : Z := 204.
Definition HTTP_400_BAD_REQUEST : Z := 400.
Definition HTTP_401_UNAUTHORIZED : Z := 401.
Definition HTTP_404_NOT_FOUND : Z := 404.
Definition HTTP_503_SERVICE_UNAVAILABLE : Z := 503.

(** ** app/auth.py: tokens *)

(** Modelled from the spec: the bearer token of app/auth.py, which is not
    among the sources.  The spec calls it an opaque signed string encoding
    the subject and an expiry; a string that does not decode to that is
    [Malformed]. *)
Inductive token :=
| Malformed (raw : string)
| Signed (sub : string) (exp : Z) (signature : string).

(** The [Token] model of app/models.py. *)
Record Token := {
  access_token : token;
  token_type : string
}.

(** ** FastAPI: requests, responses, endpoints *)

Inductive Route :=
| GET_root
| GET_health
| GET_products (category : option string) (max_price : option float)
| GET_products_id (product_id : Z)
| POST_products (product : ProductCreate)
| PUT_products_id (product_id : Z) (product : ProductUpdate)
| DELETE_products_id (product_id : Z)
| POST_users (user : UserCreate)
| POST_token (username password : string)
| GET_users_me.

(** An inbound request: the bearer token of its Authorization header, if
    any, and the route with its parsed parameters and body. *)
Record HttpRequest := {
  authorization : option token;
  route : Route
}.

Inductive Body :=
| NoBody
| JsonBody (j : json)
| DictBody (d : gmap string json)
| UserBody (u : UserResponse)
| TokenBody (t : Token)
| DetailBody (detail : string)        (* the JSON object {"detail": ...} *)
| TextBody (text : string).           (* text/plain *)

Record HttpResponse := {
  http_status : Z;
  http_body : Body
}.

(** An endpoint as registered by a decorator: its success status and its
    handler, which for a signature with [Depends(get_current_user)] awaits
    the resolved user. *)
Inductive Endpoint :=
| Public (success : Z) (handler : M Body)
| Guarded (success : Z) (handler : UserRow -> M Body).

Definition is_guarded (e : Endpoint) : bool :=
  match e with Public _ _ => false | Guarded _ _ => true end.

(** FastAPI's answer for what a handler (or a dependency) did: the
    decorator's status on return, the exception's status and detail for an
    [HTTPException], the plain-text 500 of the server for anything else. *)
Definition respond (success : Z) (r : result Body) : HttpResponse :=
  match r with
  | Return b => {| http_status := success; http_body := b |}
  | Raise (HTTPException code detail _) =>
      {| http_status := code; http_body := DetailBody detail |}
  | Raise _ =>
      {| http_status := 500; http_body := TextBody "Internal Server Error" |}
  end.

#[export] Instance M_fmap : FMap M := fun A B f m st =>
  match m st with
  | (Return a, st') => (Return (f a), st')
  | (Raise e, st') => (Raise e, st')
  end.

(** ** A concrete deployment, for the examples *)

Module demo.

(** The default of [DATA_SERVICE_URL]. *)
Definition URL : string := "http://localhost:8081/api".

(** [str] of a float, on the integral floats the examples use
    ([5.0], [0.0], ...). *)
Definition float_repr (x : float) : string :=
  match x with
  | S754_zero false => "0.0"
  | S754_zero true => "-0.0"
  | S754_infinity false => "inf"
  | S754_infinity true => "-inf"
  | S754_nan => "nan"
  | S754_finite s m e =>
      (if s then "-" else EmptyString) +:+ pretty (Z.pos m * 2 ^ e) +:+ ".0"
  end.

Definition five : float := S754_finite false 5 0.
Definition zero : float := S754_zero false.

(** A toy hasher, key and signature. *)
Definition get_password_hash (password : string) : string :=
  "hash:" +:+ password.
Definition verify_password (password hashed : string) : bool :=
  String.eqb hashed (get_password_hash password).
Definition SECRET_KEY : string := "secret".
Definition sign (key sub : string) (exp : Z) : string :=
  key +:+ "/" +:+ sub +:+ "/" +:+ pretty exp.
Definition ACCESS_TOKEN_EXPIRE : Z := 1800.

(** [ProductResponse] as a response model, on bodies whose fields already
    have their declared JSON types and a finite price: the six fields are
    kept, any other key is dropped. *)
Definition ProductResponse_model (value : json) : option json :=
  match value with
  | JDict m =>
      match m !! "id", m !! "name", m !! "description", m !! "price",
            m !! "stock_quantity", m !! "category" with
      | Some (JInt id), Some (JStr name), Some (JStr description),
        Some (JFloat (S754_finite false mantissa exponent)),
        Some (JInt stock_quantity), Some (JStr category) =>
          if 0 <=? stock_quantity then
            Some (JDict
                    {[ "id" := JInt id; "name" := JStr name;
                       "description" := JStr description;
                       "price" :=
                         JFloat (S754_finite false mantissa exponent);
                       "stock_quantity" := JInt stock_quantity;
                       "category" := JStr category ]})
          else None
      | _, _, _, _, _, _ => None
      end
  | _ => None
  end.

(** A data service that answers every call with the same status, and
    one that cannot be reached. *)
Definition answers (status : Z) (why : string) (body : result json)
  : list Request -> Request -> result Response :=
  fun _ r =>
    Return {| status_code := status; reason := why;
              resp_url := req_url r; resp_json := body |}.

Definition unreachable : list Request -> Request -> result Response :=
  fun _ _ => Raise (RequestException "Connection refused").

(** The process right after start. *)
Definition started : State := {| users_db := ∅; sent := []; clock := 0 |}.

Definition alice : UserCreate :=
  {| uc_username := "alice"; uc_email := "alice@example.com";
     uc_password := "wonderland" |}.

Definition alice_row : UserRow :=
  {| username := "alice"; email := "alice@example.com";
     hashed_password := "hash:wonderland"; disabled := false |}.

(** The process at time 100 with alice registered, and a token for her
    that expires at 1900. *)
Definition with_alice : State :=
  {| users_db := {[ "alice" := alice_row ]}; sent := []; clock := 100 |}.

Definition alice_token : token :=
  Signed "alice" 1900 "secret/alice/1900".

(** The same process once the token has expired. *)
Definition much_later : State :=
  {| users_db := {[ "alice" := alice_row ]}; sent := []; clock := 5000 |}.

End demo.

Section Gateway.

(** [os.getenv("DATA_SERVICE_URL", "http://localhost:8081/api")]. *)
Variable DATA_SERVICE_URL : string.

(** The data service and the network in front of it: given the calls made
    so far and a new call, a response or a raised exception. *)
Variable data_service : list Request -> Request -> result Response.

(** [str] of a float, used by [f"{max_price}"]. *)
Variable float_repr : float -> string.

(** The Credential Hasher of app/auth.py. *)
Variable get_password_hash : string -> string.
Variable verify_password : string -> string -> bool.

(** The Token Service's signing key, signature function and the fixed
    lifetime of a token, in seconds. *)
Variable SECRET_KEY : string.
Variable sign : string -> string -> Z -> string.
Variable ACCESS_TOKEN_EXPIRE : Z.

(** [ProductResponse] of app/models.py used as a response model: pydantic's
    validation of a value against the model (the six fields [id], [name],
    [description], [price > 0], [stock_quantity >= 0], [category], with the
    conversions of the installed pydantic) followed by the serialisation of
    the validated instance; [None] when that raises. *)
Variable ProductResponse_model : json -> option json.

#[local] Instance float_format : Format float := float_repr.

(** *** app/auth.py *)

Definition credentials_exception : exn :=
  HTTPException HTTP_401_UNAUTHORIZED "Could not validate credentials"
                [("WWW-Authenticate", "Bearer")].

(** Modelled from the spec: [issue(subject)] of the Token Service, called
    [create_access_token] by main.py; app/auth.py is not among the
    sources.  The token embeds the subject and an expiry a fixed duration
    after the time of issue, and is signed with the process-wide key. *)
Definition create_access_token (sub : string) : M token :=
  fun st =>
    let exp := clock st + ACCESS_TOKEN_EXPIRE in
    (Return (Signed sub exp (sign SECRET_KEY sub exp)), st).

(** Modelled from the spec: [verify(token)] of the Token Service; fails
    with Unauthenticated when the token is malformed, its signature is
    invalid, or it is past its expiry. *)
Definition verify_token (t : token) : M string :=
  fun st =>
    match t with
    | Malformed _ => (Raise credentials_exception, st)
    | Signed sub exp signature =>
        if negb (String.eqb signature (sign SECRET_KEY sub exp)) then
          (Raise credentials_exception, st)
        else if exp <? clock st then (Raise credentials_exception, st)
        else (Return sub, st)
    end.

(** [users_db.get(k)]. *)
Definition users_db_get (k : string) : M (option UserRow) :=
  fun st => (Return (users_db st !! k), st).

(** Modelled from the spec: the Auth Guard, [get_current_user] of
    app/auth.py.  Takes the bearer token of the request, verifies it,
    looks the subject up in the user store; a missing or invalid token or
    a missing user fails with Unauthenticated, otherwise the stored user
    is the result. *)
Definition get_current_user (auth : option token) : M UserRow :=
  match auth with
  | None => raise credentials_exception
  | Some t =>
      sub ← verify_token t;
      user ← users_db_get sub;
      match user with
      | None => raise credentials_exception
      | Some user => mret user
      end
  end.

(** *** The requests library *)

Definition send (r : Request) : M Response :=
  fun st =>
    (data_service (sent st) r,
     {| users_db := users_db st; sent := sent st ++ [r]; clock := clock st |}).

Definition requests_get (url : string) : M Response :=
  send {| req_method := GET; req_url := url; req_json := None |}.

Definition requests_post (url : string) (body : gmap string json)
  : M Response :=
  send {| req_method := POST; req_url := url; req_json := Some body |}.

Definition requests_put (url : string) (body : gmap string json)
  : M Response :=
  send {| req_method := PUT; req_url := url; req_json := Some body |}.

Definition requests_delete (url : string) : M Response :=
  send {| req_method := DELETE; req_url := url; req_json := None |}.

(** *** app/main.py *)

Definition read_root : M (gmap string json) :=
  mret {[ "message" := JStr "Welcome to Enterprise Demo Backend API" ]}.

Definition health_check : M (gmap string json) :=
  try_except_Exception
    (response ← requests_get (DATA_SERVICE_URL +:+ "/products");
     if status_code response =? 200 then
       mret {[ "status" := JStr "healthy";
               "data_service" := JStr "connected" ]}
     else
       mret {[ "status" := JStr "degraded";
               "data_service" := JStr "unavailable" ]})
    (fun e =>
       mret {[ "status" := JStr "degraded";
               "error" := JStr (str_exn e) ]}).

Definition data_service_unavailable {A} (e : exn) : M A :=
  raise (HTTPException HTTP_503_SERVICE_UNAVAILABLE
           ("Data service unavailable: " +:+ str_exn e) []).

Definition product_not_found {A} (product_id : Z) : M A :=
  raise (HTTPException HTTP_404_NOT_FOUND
           ("Product with ID " +:+ format product_id +:+ " not found") []).

Definition get_products (category : option string)
    (max_price : option float) : M json :=
  try_except_RequestException
    (response ←
       (if truthy category then
          requests_get (DATA_SERVICE_URL +:+ "/products/category/" +:+
                        format category)
        else if truthy max_price then
          requests_get (DATA_SERVICE_URL +:+ "/products/price/" +:+
                        format max_price)
        else
          requests_get (DATA_SERVICE_URL +:+ "/products"));
     lift (raise_for_status response);;
     lift (resp_json response))
    data_service_unavailable.

Definition get_product (product_id : Z) : M json :=
  try_except_RequestException
    (response ← requests_get (DATA_SERVICE_URL +:+ "/products/" +:+
                              format product_id);
     if status_code response =? 404 then product_not_found product_id
     else
       lift (raise_for_status response);;
       lift (resp_json response))
    data_service_unavailable.

Definition create_product (product : ProductCreate)
    (current_user : UserRow) : M json :=
  try_except_RequestException
    (response ← requests_post (DATA_SERVICE_URL +:+ "/products")
                              (ProductCreate_dict product);
     lift (raise_for_status response);;
     lift (resp_json response))
    data_service_unavailable.

Definition update_product (product_id : Z) (product : ProductUpdate)
    (current_user : UserRow) : M json :=
  try_except_RequestException
    (response ← requests_put (DATA_SERVICE_URL +:+ "/products/" +:+
                              format product_id)
                             (ProductUpdate_dict_exclude_unset product);
     if status_code response =? 404 then product_not_found product_id
     else
       lift (raise_for_status response);;
       lift (resp_json response))
    data_service_unavailable.

Definition delete_product (product_id : Z) (current_user : UserRow)
  : M unit :=
  try_except_RequestException
    (response ← requests_delete (DATA_SERVICE_URL +:+ "/products/" +:+
                                 format product_id);
     if status_code response =? 404 then product_not_found product_id
     else
       lift (raise_for_status response);;
       mret tt)
    data_service_unavailable.

Definition users_db_setitem (k : string) (row : UserRow) : M unit :=
  fun st =>
    (Return tt,
     {| users_db := <[k := row]> (users_db st);
        sent := sent st; clock := clock st |}).

Definition register_user (user : UserCreate) : M UserResponse :=
  fun st =>
    if bool_decide (uc_username user ∈ dom (users_db st)) then
      raise (HTTPException HTTP_400_BAD_REQUEST
               "Username already registered" []) st
    else
      let hashed_password := get_password_hash (uc_password user) in
      (users_db_setitem (uc_username user)
         {| username := uc_username user;
            email := uc_email user;
            hashed_password := hashed_password;
            disabled := false |};;
       mret {| ur_username := uc_username user;
               ur_email := uc_email user;
               ur_disabled := false |}) st.

(** [not user or not verify_password(...)]: a stored row is a non-empty
    dict, hence truthy; [or] does not evaluate its right operand when
    [user] is [None]. *)
Definition login_for_access_token (username password : string) : M Token :=
  fun st =>
    match users_db st !! username with
    | None =>
        raise (HTTPException HTTP_401_UNAUTHORIZED
                 "Incorrect username or password"
                 [("WWW-Authenticate", "Bearer")]) st
    | Some user =>
        if negb (verify_password password (hashed_password user)) then
          raise (HTTPException HTTP_401_UNAUTHORIZED
                   "Incorrect username or password"
                   [("WWW-Authenticate", "Bearer")]) st
        else
          (access_token ← create_access_token username;
           mret {| access_token := access_token;
                   token_type := "bearer" |}) st
    end.

Definition read_users_me (current_user : UserRow) : M UserRow :=
  mret current_user.

(** [response_model=UserResponse] applied to a stored row. *)
Definition UserResponse_of_row (u : UserRow) : UserResponse :=
  {| ur_username := username u; ur_email := email u;
     ur_disabled := disabled u |}.

(** [List[T]] as a response model: a JSON array every item of which the
    model of [T] accepts. *)
Definition List_model (item : json -> option json) (value : json)
  : option json :=
  match value with
  | JList items => JList <$> mapM item items
  | _ => None
  end.

(** [response_model=...] of a route decorator: FastAPI validates what the
    handler returned against the model and answers with the validated
    content; for a value the model rejects it raises
    ResponseValidationError, after the handler has returned and so outside
    the handler's [try]. *)
Definition response_model (model : json -> option json) (handler : M json)
  : M json :=
  fun st =>
    match handler st with
    | (Return value, st') =>
        match model value with
        | Some content => (Return content, st')
        | None => (Raise (Exception "ResponseValidationError"), st')
        end
    | (Raise e, st') => (Raise e, st')
    end.

(** The routes as the decorators register them. *)
Definition endpoint (r : Route) : Endpoint :=
  match r with
  | GET_root => Public HTTP_200_OK (DictBody <$> read_root)
  | GET_health => Public HTTP_200_OK (DictBody <$> health_check)
  | GET_products category max_price =>
      Public HTTP_200_OK
        (JsonBody <$> response_model (List_model ProductResponse_model)
                        (get_products category max_price))
  | GET_products_id product_id =>
      Public HTTP_200_OK
        (JsonBody <$> response_model ProductResponse_model
                        (get_product product_id))
  | POST_products product =>
      Guarded HTTP_201_CREATED
        (fun current_user =>
           JsonBody <$> response_model ProductResponse_model
                          (create_product product current_user))
  | PUT_products_id product_id product =>
      Guarded HTTP_200_OK
        (fun current_user =>
           JsonBody <$> response_model ProductResponse_model
                          (update_product product_id product current_user))
  | DELETE_products_id product_id =>
      Guarded HTTP_204_NO_CONTENT
        (fun current_user =>
           (fun _ => NoBody) <$> delete_product product_id current_user)
  | POST_users user =>
      Public HTTP_201_CREATED (UserBody <$> register_user user)
  | POST_token username password =>
      Public HTTP_200_OK (TokenBody <$> login_for_access_token username password)
  | GET_users_me =>
      Guarded HTTP_200_OK
        (fun current_user =>
           (fun u => UserBody (UserResponse_of_row u)) <$>
             read_users_me current_user)
  end.

(** FastAPI serving one request: dependencies are resolved first, the
    handler runs only if they did not raise. *)
Definition serve (req : HttpRequest) (st : State) : HttpResponse * State :=
  match endpoint (route req) with
  | Public success handler =>
      let '(r, st') := handler st in (respond success r, st')
  | Guarded success handler =>
      let '(r, st') :=
        (current_user ← get_current_user (authorization req);
         handler current_user) st in
      (respond success r, st')
  end.

(** A run of the server over a list of requests, oldest first. *)
Fixpoint serve_all (reqs : list HttpRequest) (st : State)
  : list HttpResponse * State :=
  match reqs with
  | [] => ([], st)
  | req :: reqs' =>
      let '(resp, st') := serve req st in
      let '(resps, st'') := serve_all reqs' st' in
      (resp :: resps, st'')
  end.

Definition success_status (e : Endpoint) : Z :=
  match e with Public success _ | Guarded success _ => success end.

Definition run_handler (e : Endpoint) (current_user : UserRow) : M Body :=
  match e with
  | Public _ handler => handler
  | Guarded _ handler => handler current_user
  end.

(** The answer to a request once its dependencies are resolved: the
    route's handler, run with the resolved user where it takes one. *)
Definition handled (r : Route) (current_user : UserRow) (st : State)
  : HttpResponse * State :=
  let '(res, st') := run_handler (endpoint r) current_user st in
  (respond (success_status (endpoint r)) res, st').

(** The product operations, and those on one product by id. *)
Definition is_product_route (r : Route) : bool :=
  match r with
  | GET_products _ _ | GET_products_id _ | POST_products _
  | PUT_products_id _ _ | DELETE_products_id _ => true
  | _ => false
  end.

Definition by_id (r : Route) : bool :=
  match r with
  | GET_products_id _ | PUT_products_id _ _ | DELETE_products_id _ => true
  | _ => false
  end.

Definition is_delete (r : Route) : bool :=
  match r with DELETE_products_id _ => true | _ => false end.

(** The endpoints the spec lists as protected: product create, update,
    delete, and "who am I". *)
Definition protected (r : Route) : bool :=
  match r with
  | POST_products _ | PUT_products_id _ _ | DELETE_products_id _
  | GET_users_me => true
  | _ => false
  end.

Definition unavailable (text : string) : HttpResponse :=
  {| http_status := 503;
     http_body := DetailBody ("Data service unavailable: " +:+ text) |}.

Definition unauthenticated : HttpResponse :=
  {| http_status := 401;
     http_body := DetailBody "Could not validate credentials" |}.

Definition healthy : gmap string json :=
  {[ "status" := JStr "healthy"; "data_service" := JStr "connected" ]}.

Definition degraded_unavailable : gmap string json :=
  {[ "status" := JStr "degraded"; "data_service" := JStr "unavailable" ]}.

Definition degraded_error (e : exn) : gmap string json :=
  {[ "status" := JStr "degraded"; "error" := JStr (str_exn e) ]}.

(** ** Vocabulary of the properties *)

Implicit Types (st : State) (category : option string)
  (max_price : option float) (product_id : Z).

Definition list_request : Request :=
  {| req_method := GET; req_url := DATA_SERVICE_URL +:+ "/products";
     req_json := None |}.

Definition category_request (c : string) : Request :=
  {| req_method := GET;
     req_url := DATA_SERVICE_URL +:+ "/products/category/" +:+ c;
     req_json := None |}.

Definition price_request (p : float) : Request :=
  {| req_method := GET;
     req_url := DATA_SERVICE_URL +:+ "/products/price/" +:+ float_repr p;
     req_json := None |}.

(** The state after one more upstream call. *)
Definition after_call (st : State) (r : Request) : State :=
  {| users_db := users_db st; sent := sent st ++ [r]; clock := clock st |}.

(** What the body of a product handler makes of the data service's
    answer: [raise_for_status], then [k] on the response. *)
Definition checked {A} (k : Response -> result A) (out : result Response)
  : result A :=
  match out with
  | Return response =>
      match raise_for_status response with
      | Return _ => k response
      | Raise e => Raise e
      end
  | Raise e => Raise e
  end.

(** The same with the 404 check of the by-id handlers in front. *)
Definition checked_by_id {A} (product_id : Z) (k : Response -> result A)
    (out : result Response) : result A :=
  match out with
  | Return response =>
      if status_code response =? 404 then
        Raise (HTTPException HTTP_404_NOT_FOUND
                 ("Product with ID " +:+ format product_id +:+ " not found")
                 [])
      else checked k out
  | Raise e => Raise e
  end.

(** The [except requests.RequestException] clause of the product
    handlers, on a finished body. *)
Definition or_503 {A} (r : result A) : result A :=
  match r with
  | Raise (RequestException msg) =>
      Raise (HTTPException HTTP_503_SERVICE_UNAVAILABLE
               ("Data service unavailable: " +:+ msg) [])
  | other => other
  end.

(** The call [get_products] makes, by the truthiness of its filters. *)
Definition products_request category max_price : Request :=
  if truthy category then category_request (format category)
  else if truthy max_price then
    {| req_method := GET;
       req_url := DATA_SERVICE_URL +:+ "/products/price/" +:+
                  format max_price;
       req_json := None |}
  else list_request.

(** The row [register_user] stores for a request. *)
Definition row_of (user : UserCreate) : UserRow :=
  {| username := uc_username user;
     email := uc_email user;
     hashed_password := get_password_hash (uc_password user);
     disabled := false |}.

(** A sequence of registrations, oldest first, with their outcomes. *)
Fixpoint register_all (users : list UserCreate) (st : State)
  : list (result UserResponse) * State :=
  match users with
  | [] => ([], st)
  | user :: users' =>
      let '(r, st') := register_user user st in
      let '(rs, st'') := register_all users' st' in
      (r :: rs, st'')
  end.

(** A registration for username [k] that succeeded. *)
Definition succeeded_for (k : string)
    (attempt : UserCreate * result UserResponse) : bool :=
  String.eqb (uc_username attempt.1) k &&
  match attempt.2 with Return _ => true | Raise _ => false end.

Definition update_request (product_id : Z) (body : gmap string json)
  : Request :=
  {| req_method := PUT;
     req_url := DATA_SERVICE_URL +:+ "/products/" +:+ format product_id;
     req_json := Some body |}.

(** The handler of a product route, as one upstream call and what is made
    of its outcome. *)
Definition product_call (r : Route) : Request :=
  match r with
  | GET_products category max_price => products_request category max_price
  | GET_products_id product_id =>
      {| req_method := GET;
         req_url := DATA_SERVICE_URL +:+ "/products/" +:+ format product_id;
         req_json := None |}
  | POST_products product =>
      {| req_method := POST; req_url := DATA_SERVICE_URL +:+ "/products";
         req_json := Some (ProductCreate_dict product) |}
  | PUT_products_id product_id product =>
      update_request product_id (ProductUpdate_dict_exclude_unset product)
  | DELETE_products_id product_id =>
      {| req_method := DELETE;
         req_url := DATA_SERVICE_URL +:+ "/products/" +:+ format product_id;
         req_json := None |}
  | _ => list_request
  end.

(** The response model of a product route, from its decorator; delete has
    none. *)
Definition response_model_of (r : Route) : json -> option json :=
  match r with
  | GET_products _ _ => List_model ProductResponse_model
  | _ => ProductResponse_model
  end.

(** [response_model] on a finished handler. *)
Definition validated (model : json -> option json) (r : result json)
  : result json :=
  match r with
  | Return value =>
      match model value with
      | Some content => Return content
      | None => Raise (Exception "ResponseValidationError")
      end
  | Raise e => Raise e
  end.

Definition product_outcome (r : Route) (out : result Response)
  : result Body :=
  match r with
  | GET_products _ _ | POST_products _ =>
      JsonBody <$> validated (response_model_of r)
                     (or_503 (checked resp_json out))
  | GET_products_id product_id | PUT_products_id product_id _ =>
      JsonBody <$> validated (response_model_of r)
                     (or_503 (checked_by_id product_id resp_json out))
  | DELETE_products_id product_id =>
      (fun _ => NoBody) <$>
        or_503 (checked_by_id product_id (fun _ => Return tt) out)
  | _ => Raise (Exception "not a product route")
  end.

(** The routes whose handlers have no call of [requests] in them. *)
Definition is_local_route (r : Route) : bool :=
  match r with
  | GET_root | POST_users _ | POST_token _ _ | GET_users_me => true
  | _ => false
  end.

(** The product a by-id route names. *)
Definition route_product_id (r : Route) : option Z :=
  match r with
  | GET_products_id product_id | PUT_products_id product_id _
  | DELETE_products_id product_id => Some product_id
  | _ => None
  end.

(** The answer of [login_for_access_token] to bad credentials. *)
Definition bad_login : HttpResponse :=
  {| http_status := 401;
     http_body := DetailBody "Incorrect username or password" |}.

(** The answer to an exception no handler catches. *)
Definition internal_error : HttpResponse :=
  {| http_status := 500; http_body := TextBody "Internal Server Error" |}.

Definition create_request (body : gmap string json) : Request :=
  {| req_method := POST; req_url := DATA_SERVICE_URL +:+ "/products";
     req_json := Some body |}.

Definition login_of (a : option token) (name password : string)
  : HttpRequest :=
  {| authorization := a; route := POST_token name password |}.

Definition registration_of (a : option token) (user : UserCreate)
  : HttpRequest :=
  {| authorization := a; route := POST_users user |}.

(** ** Properties *)

(** The models of app/models.py know nothing of the deployment. *)
Ltac no_env :=
  clear DATA_SERVICE_URL data_service float_repr get_password_hash
    verify_password SECRET_KEY sign ACCESS_TOKEN_EXPIRE.

Ltac run_body :=
  unfold try_except_RequestException, data_service_unavailable,
    product_not_found, raise, lift, mbind, M_bind, mret, M_ret, send;
  simpl.

Lemma forward_checked {A} (r : Request) (k : Response -> result A) st :
  try_except_RequestException
    (response ← send r;
     lift (raise_for_status response);;
     lift (k response))
    data_service_unavailable st
  = (or_503 (checked k (data_service (sent st) r)), after_call st r).
Proof.
  run_body. unfold after_call.
  destruct (data_service (sent st) r) as [resp|e]; simpl.
  - destruct (raise_for_status resp) as [[]|e]; simpl.
    + destruct (k resp) as [a|[]]; reflexivity.
    + destruct e; reflexivity.
  - destruct e; reflexivity.
Qed.

Lemma forward_checked_by_id {A} (r : Request) product_id
    (k : Response -> result A) st :
  try_except_RequestException
    (response ← send r;
     if status_code response =? 404 then product_not_found product_id
     else
       lift (raise_for_status response);;
       lift (k response))
    data_service_unavailable st
  = (or_503 (checked_by_id product_id k (data_service (sent st) r)),
     after_call st r).
Proof.
  run_body. unfold after_call.
  destruct (data_service (sent st) r) as [resp|e]; simpl.
  - destruct (status_code resp =? 404); simpl; [reflexivity|].
    destruct (raise_for_status resp) as [[]|e]; simpl.
    + destruct (k resp) as [a|[]]; reflexivity.
    + destruct e; reflexivity.
  - destruct e; reflexivity.
Qed.

Lemma response_model_run (model : json -> option json) (handler : M json)
    st :
  response_model model handler st =
    (validated model (handler st).1, (handler st).2).
Proof.
  unfold response_model, validated.
  destruct (handler st) as [[value|e] st']; cbn [fst snd]; [|reflexivity].
  by destruct (model value).
Qed.

Lemma get_products_run category max_price st :
  get_products category max_price st =
    (or_503 (checked resp_json
               (data_service (sent st)
                  (products_request category max_price))),
     after_call st (products_request category max_price)).
Proof.
  unfold get_products, products_request, requests_get.
  destruct (truthy category); [apply forward_checked|].
  destruct (truthy max_price); apply forward_checked.
Qed.

Lemma get_product_run product_id st :
  let r := {| req_method := GET;
              req_url := DATA_SERVICE_URL +:+ "/products/" +:+
                         format product_id;
              req_json := None |} in
  get_product product_id st =
    (or_503 (checked_by_id product_id resp_json (data_service (sent st) r)),
     after_call st r).
Proof. apply forward_checked_by_id. Qed.

Lemma create_product_run product current_user st :
  let r := {| req_method := POST;
              req_url := DATA_SERVICE_URL +:+ "/products";
              req_json := Some (ProductCreate_dict product) |} in
  create_product product current_user st =
    (or_503 (checked resp_json (data_service (sent st) r)),
     after_call st r).
Proof. apply forward_checked. Qed.

Lemma update_product_run product_id product current_user st :
  let r := {| req_method := PUT;
              req_url := DATA_SERVICE_URL +:+ "/products/" +:+
                         format product_id;
              req_json := Some (ProductUpdate_dict_exclude_unset product) |}
  in
  update_product product_id product current_user st =
    (or_503 (checked_by_id product_id resp_json (data_service (sent st) r)),
     after_call st r).
Proof. apply forward_checked_by_id. Qed.

Lemma delete_product_run product_id current_user st :
  let r := {| req_method := DELETE;
              req_url := DATA_SERVICE_URL +:+ "/products/" +:+
                         format product_id;
              req_json := None |} in
  delete_product product_id current_user st =
    (or_503 (checked_by_id product_id (fun _ => Return tt)
               (data_service (sent st) r)),
     after_call st r).
Proof. apply (forward_checked_by_id _ product_id (fun _ => Return tt)). Qed.

Lemma request_url_differs (u1 u2 : string) (l : list Request) :
  u1 ≠ u2 ->
  l ++ [ {| req_method := GET; req_url := DATA_SERVICE_URL +:+ u1;
            req_json := None |} ]
  ≠ l ++ [ {| req_method := GET; req_url := DATA_SERVICE_URL +:+ u2;
              req_json := None |} ].
Proof.
  intros Hne Heq. apply app_inv_head in Heq.
  injection Heq as Heq. apply (inj (String.app DATA_SERVICE_URL)) in Heq.
  contradiction.
Qed.

(** C1, as amended: a GET /products request with a non-empty category is
    forwarded to /products/category/{category} whatever max_price is, and
    max_price is ignored; with no category and a non-zero max_price it is
    forwarded to /products/price/{max_price}; with neither filter it is
    forwarded to /products. *)
Theorem C1_filter_dispatch category max_price st :
  (forall c, category = Some c -> c ≠ EmptyString) ->
  (category = None -> forall p, max_price = Some p -> truthy p = true) ->
  sent (get_products category max_price st).2 =
    sent st ++ [ match category, max_price with
                 | Some c, _ => category_request c
                 | None, Some p => price_request p
                 | None, None => list_request
                 end ]
  ∧ (is_Some category ->
     get_products category max_price st = get_products category None st).
Proof.
  intros Hc Hp. rewrite !get_products_run. unfold products_request.
  destruct category as [c|]; simpl.
  - assert (truthy (Some c) = true) as ->.
    { destruct c; [by destruct (Hc _ eq_refl)|reflexivity]. }
    done.
  - split; [|by intros []].
    destruct max_price as [p|]; [|reflexivity].
    change (truthy (None : option string)) with false; cbv iota.
    change (truthy (Some p)) with (truthy p). by rewrite (Hp eq_refl p).
Qed.

(** C10: falsy filter values count as absent.  With category the empty
    string the request is handled as if no category were given and the
    category path is not taken, so a non-zero max_price decides the path;
    with max_price zero (of either sign) and no usable category, the price
    path is not taken and the list path is. *)
Theorem C10_falsy_filters_are_absent (p : float) (zero_sign : bool)
    max_price st :
  truthy p = true ->
  get_products (Some EmptyString) max_price st = get_products None max_price st
  ∧ sent (get_products (Some EmptyString) max_price st).2
      ≠ sent st ++ [category_request EmptyString]
  ∧ sent (get_products (Some EmptyString) (Some p) st).2
      = sent st ++ [price_request p]
  ∧ (forall category, truthy category = false ->
       sent (get_products category (Some (S754_zero zero_sign)) st).2
         = sent st ++ [list_request]
       ∧ sent (get_products category (Some (S754_zero zero_sign)) st).2
         ≠ sent st ++ [price_request (S754_zero zero_sign)]).
Proof.
  intros Hp. rewrite !get_products_run. unfold products_request.
  change (truthy (Some EmptyString)) with false; cbv iota.
  change (truthy (None : option string)) with false; cbv iota.
  change (truthy (Some p)) with (truthy p); rewrite Hp.
  split; [reflexivity|]. split; [|split; [reflexivity|]].
  - simpl. destruct (truthy max_price).
    + apply request_url_differs. simpl. discriminate.
    + unfold list_request, category_request.
      apply request_url_differs. discriminate.
  - intros category Hcat. rewrite !get_products_run.
    unfold products_request. rewrite Hcat.
    change (truthy (Some (S754_zero zero_sign))) with false; cbv iota.
    split; [reflexivity|].
    unfold list_request, price_request; simpl.
    apply request_url_differs. simpl. discriminate.
Qed.

Lemma exclude_unset_lookup (product : ProductUpdate) (k : string) :
  ProductUpdate_dict_exclude_unset product !! k =
    if decide (k ∈ pu_fields_set product)
    then ProductUpdate_dict product !! k else None.
Proof using Type.
  no_env.
  unfold ProductUpdate_dict_exclude_unset. rewrite map_lookup_filter.
  destruct (ProductUpdate_dict product !! k) as [v|]; simpl.
  - case_decide; [by rewrite option_guard_True|by rewrite option_guard_False].
  - by case_decide.
Qed.

Lemma ProductUpdate_dict_dom (product : ProductUpdate) :
  dom (ProductUpdate_dict product) = ProductUpdate_fields.
Proof using Type.
  no_env.
  unfold ProductUpdate_dict, ProductUpdate_fields.
  rewrite !dom_insert_L, dom_singleton_L. set_solver.
Qed.

Lemma exclude_unset_dom (product : ProductUpdate) :
  dom (ProductUpdate_dict_exclude_unset product) =
    pu_fields_set product ∩ ProductUpdate_fields.
Proof using Type.
  no_env.
  apply set_eq. intros k.
  rewrite elem_of_dom, exclude_unset_lookup, elem_of_intersection.
  rewrite <- (ProductUpdate_dict_dom product), elem_of_dom.
  case_decide; [tauto|]. split; [by intros [? ?]|tauto].
Qed.

Lemma exclude_unset_subseteq (product : ProductUpdate) :
  ProductUpdate_dict_exclude_unset product ⊆ ProductUpdate_dict product.
Proof using Type.
  no_env.
  unfold ProductUpdate_dict_exclude_unset.
  generalize (ProductUpdate_dict product). intros m.
  apply map_filter_subseteq.
Qed.

Lemma exclude_unset_price_only (x : float) :
  ProductUpdate_dict_exclude_unset
    (ProductUpdate_parse Unset Unset (Given (Some x)) Unset Unset)
  = {[ "price" := JFloat x ]}.
Proof using Type. no_env. vm_compute. reflexivity. Qed.

Lemma given_key_subseteq {A} (k : string) (g : given A) :
  given_key k g ⊆ {[ k ]}.
Proof using Type. no_env. destruct g; set_solver. Qed.

Lemma parse_fields_set (name description : given string)
    (price : given float) (stock_quantity : given Z)
    (category : given string) :
  pu_fields_set
    (ProductUpdate_parse name description price stock_quantity category)
  ⊆ ProductUpdate_fields.
Proof using Type.
  no_env.
  simpl. unfold ProductUpdate_fields.
  pose proof (given_key_subseteq "name" name).
  pose proof (given_key_subseteq "description" description).
  pose proof (given_key_subseteq "price" price).
  pose proof (given_key_subseteq "stock_quantity" stock_quantity).
  pose proof (given_key_subseteq "category" category).
  set_solver.
Qed.

(** C2: PUT /products/{id} forwards upstream a body whose fields are
    exactly those the caller's input set (an explicit null included), each
    with its validated value, and no other field; an update of price alone
    forwards the one-field body with price, without name, description,
    stock_quantity or category. *)
Theorem C2_update_forwards_set_fields product_id current_user st
    (name description : given string) (price : given float)
    (stock_quantity : given Z) (category : given string) (x : float) :
  let product :=
    ProductUpdate_parse name description price stock_quantity category in
  (exists body,
     sent (update_product product_id product current_user st).2
       = sent st ++ [update_request product_id body]
     ∧ dom body =
         given_key "name" name ∪ given_key "description" description ∪
         given_key "price" price ∪
         given_key "stock_quantity" stock_quantity ∪
         given_key "category" category
     ∧ body ⊆ ProductUpdate_dict product)
  ∧ sent (update_product product_id
            (ProductUpdate_parse Unset Unset (Given (Some x)) Unset Unset)
            current_user st).2
      = sent st ++ [update_request product_id {[ "price" := JFloat x ]}].
Proof using DATA_SERVICE_URL data_service.
  clear float_repr get_password_hash verify_password SECRET_KEY sign
    ACCESS_TOKEN_EXPIRE.
  intros product. split.
  - exists (ProductUpdate_dict_exclude_unset product).
    rewrite update_product_run. split; [reflexivity|]. split.
    + rewrite exclude_unset_dom.
      pose proof (parse_fields_set name description price stock_quantity
                    category) as Hsub.
      change (pu_fields_set product) with
        (given_key "name" name ∪ given_key "description" description ∪
         given_key "price" price ∪
         given_key "stock_quantity" stock_quantity ∪
         given_key "category" category) in Hsub |- *.
      set_solver.
    + exact (exclude_unset_subseteq product).
  - rewrite update_product_run. unfold after_call, update_request.
    cbn [snd sent]. by rewrite exclude_unset_price_only.
Qed.

Lemma register_user_fresh user st :
  users_db st !! uc_username user = None ->
  register_user user st =
    (Return {| ur_username := uc_username user; ur_email := uc_email user;
               ur_disabled := false |},
     {| users_db := <[uc_username user := row_of user]> (users_db st);
        sent := sent st; clock := clock st |}).
Proof.
  intros Hnone. unfold register_user.
  rewrite bool_decide_eq_false_2; [reflexivity|].
  rewrite elem_of_dom, Hnone. by intros [? ?].
Qed.

Lemma register_user_taken user st :
  is_Some (users_db st !! uc_username user) ->
  register_user user st =
    (Raise (HTTPException HTTP_400_BAD_REQUEST
              "Username already registered" []), st).
Proof.
  intros Hsome. unfold register_user.
  rewrite bool_decide_eq_true_2; [reflexivity|]. by apply elem_of_dom.
Qed.

Lemma serve_POST_users (a : option token) user st :
  serve {| authorization := a; route := POST_users user |} st =
    (respond HTTP_201_CREATED
       match (register_user user st).1 with
       | Return u => Return (UserBody u)
       | Raise e => Raise e
       end,
     (register_user user st).2).
Proof.
  unfold serve; cbn [route endpoint]. unfold fmap, M_fmap.
  by destruct (register_user user st) as [[]].
Qed.

(** C3: registering a username that is absent from the user store
    succeeds with 201 and stores the password's hash; registering the same
    username again fails with 400, Conflict, and leaves the store as it
    is. *)
Theorem C3_register_twice (user user' : UserCreate)
    (a a' : option token) st :
  users_db st !! uc_username user = None ->
  uc_username user' = uc_username user ->
  let st1 := (register_user user st).2 in
  register_user user st =
    (Return {| ur_username := uc_username user; ur_email := uc_email user;
               ur_disabled := false |}, st1)
  ∧ users_db st1 !! uc_username user =
      Some {| username := uc_username user; email := uc_email user;
              hashed_password := get_password_hash (uc_password user);
              disabled := false |}
  ∧ register_user user' st1 =
      (Raise (HTTPException 400 "Username already registered" []), st1)
  ∧ http_status <$>
      (serve_all [ {| authorization := a; route := POST_users user |};
                   {| authorization := a'; route := POST_users user' |} ]
                 st).1
    = [201; 400].
Proof.
  intros Hnone Hsame st1. subst st1.
  rewrite (register_user_fresh _ _ Hnone). simpl.
  split; [reflexivity|]. split; [apply lookup_insert_eq|].
  assert (Htaken : register_user user'
            {| users_db := <[uc_username user := row_of user]> (users_db st);
               sent := sent st; clock := clock st |}
          = (Raise (HTTPException HTTP_400_BAD_REQUEST
                      "Username already registered" []),
             {| users_db := <[uc_username user := row_of user]> (users_db st);
                sent := sent st; clock := clock st |})).
  { apply register_user_taken. simpl. rewrite Hsame, lookup_insert_eq. eauto. }
  split; [exact Htaken|].
  unfold serve_all.
  rewrite serve_POST_users, (register_user_fresh _ _ Hnone).
  cbn [fst snd]. rewrite serve_POST_users, Htaken. reflexivity.
Qed.

Lemma register_user_lookup user st k :
  users_db (register_user user st).2 !! k =
    match users_db st !! k with
    | Some row => Some row
    | None => if String.eqb (uc_username user) k then Some (row_of user)
              else None
    end.
Proof.
  destruct (users_db st !! uc_username user) as [row0|] eqn:Hu.
  - rewrite register_user_taken by eauto. simpl.
    destruct (users_db st !! k) eqn:Hk; [reflexivity|].
    destruct (String.eqb_spec (uc_username user) k); congruence.
  - rewrite register_user_fresh by done. simpl.
    destruct (String.eqb_spec (uc_username user) k) as [<-|Hne].
    + by rewrite lookup_insert_eq, Hu.
    + rewrite lookup_insert_ne by done. by destruct (users_db st !! k).
Qed.

Lemma register_all_cons user users st :
  register_all (user :: users) st =
    ((register_user user st).1 ::
       (register_all users (register_user user st).2).1,
     (register_all users (register_user user st).2).2).
Proof.
  cbn [register_all]. destruct (register_user user st) as [r st'].
  cbn [fst snd]. by destruct (register_all users st').
Qed.

(** The first registration of a username is the one the store keeps. *)
Lemma register_all_lookup users st k :
  users_db (register_all users st).2 !! k =
    match users_db st !! k with
    | Some row => Some row
    | None =>
        row_of <$> List.find (fun u => String.eqb (uc_username u) k) users
    end.
Proof.
  revert st. induction users as [|user users IH]; intros st.
  - simpl. by destruct (users_db st !! k).
  - rewrite register_all_cons. simpl. rewrite IH, register_user_lookup.
    destruct (users_db st !! k); [reflexivity|].
    by destruct (String.eqb (uc_username user) k).
Qed.

Lemma register_user_outcome user st :
  (register_user user st).1 =
    match users_db st !! uc_username user with
    | Some _ => Raise (HTTPException HTTP_400_BAD_REQUEST
                         "Username already registered" [])
    | None => Return {| ur_username := uc_username user;
                        ur_email := uc_email user; ur_disabled := false |}
    end.
Proof.
  destruct (users_db st !! uc_username user) eqn:Hu.
  - by rewrite register_user_taken by eauto.
  - by rewrite register_user_fresh.
Qed.

(** How many registrations of [k] succeed in a run. *)
Lemma register_all_successes users st k :
  length (List.filter (succeeded_for k)
            (zip users (register_all users st).1)) =
    match users_db st !! k with
    | Some _ => 0%nat
    | None =>
        match List.find (fun u => String.eqb (uc_username u) k) users with
        | Some _ => 1%nat
        | None => 0%nat
        end
    end.
Proof.
  revert st. induction users as [|user users IH]; intros st.
  - simpl. by destruct (users_db st !! k).
  - rewrite register_all_cons. cbn [fst zip_with List.filter].
    unfold succeeded_for at 1. cbn [fst snd List.find].
    rewrite register_user_outcome.
    destruct (String.eqb_spec (uc_username user) k) as [Heq|Hne]; simpl.
    + rewrite Heq. destruct (users_db st !! k) eqn:Hk; simpl.
      * rewrite IH, register_user_lookup, Hk. reflexivity.
      * rewrite IH, register_user_lookup, Hk, Heq, String.eqb_refl.
        reflexivity.
    + assert (Hsame : users_db (register_user user st).2 !! k
                      = users_db st !! k).
      { rewrite register_user_lookup.
        destruct (users_db st !! k); [reflexivity|].
        by destruct (String.eqb_spec (uc_username user) k). }
      destruct (users_db st !! uc_username user); simpl;
        by rewrite IH, Hsame.
Qed.

Lemma get_current_user_cases (a : option token) st :
  (exists u, get_current_user a st = (Return u, st))
  ∨ get_current_user a st = (Raise credentials_exception, st).
Proof.
  destruct a as [[raw|sub exp sg]|]; [by right| |by right].
  unfold get_current_user, mbind, M_bind, verify_token.
  destruct (negb _); [by right|].
  destruct (exp <? clock st); [by right|].
  unfold users_db_get. destruct (users_db st !! sub); [left; eauto|by right].
Qed.

(** Only registration touches the user store. *)
Lemma serve_users_db req st :
  users_db (serve req st).2 =
    match route req with
    | POST_users user => users_db (register_user user st).2
    | _ => users_db st
    end.
Proof.
  unfold serve.
  destruct req as [a []]; cbn [route endpoint authorization];
    unfold fmap, M_fmap, mbind, M_bind;
    try (destruct (get_current_user_cases a st) as [[u ->]| ->];
         [|reflexivity]).
  - reflexivity.
  - unfold health_check, try_except_Exception, mbind, M_bind, requests_get,
      send; simpl.
    destruct (data_service _ _) as [resp|e]; [|reflexivity].
    by destruct (status_code resp =? 200).
  - rewrite response_model_run, get_products_run.
    by destruct (validated _ _).
  - rewrite response_model_run, get_product_run.
    by destruct (validated _ _).
  - rewrite response_model_run, create_product_run.
    by destruct (validated _ _).
  - rewrite response_model_run, update_product_run.
    by destruct (validated _ _).
  - rewrite delete_product_run. by destruct (or_503 _).
  - destruct (register_user user st) as [[]]; reflexivity.
  - unfold login_for_access_token.
    destruct (users_db st !! username0) as [row|]; [|reflexivity].
    by destruct (negb _).
  - reflexivity.
Qed.

(** C4: usernames are unique in the user store.  After any sequence of
    registrations from the empty store, the record under a username is the
    one made by the first registration of that username and carries that
    username, at most one registration of it succeeded, and no request of
    any kind replaces or removes a record once stored. *)
Theorem C4_username_unique (users : list UserCreate) (k : string) st :
  users_db st = ∅ ->
  let run := register_all users st in
  users_db run.2 !! k =
    row_of <$> List.find (fun u => String.eqb (uc_username u) k) users
  ∧ (forall row, users_db run.2 !! k = Some row -> username row = k)
  ∧ (length (List.filter (succeeded_for k) (zip users run.1)) <= 1)%nat
  ∧ (forall req st1 row,
       users_db st1 !! k = Some row ->
       users_db (serve req st1).2 !! k = Some row).
Proof.
  intros Hempty run. subst run.
  assert (Hfirst : users_db (register_all users st).2 !! k =
            row_of <$> List.find (fun u => String.eqb (uc_username u) k)
                         users).
  { by rewrite register_all_lookup, Hempty, lookup_empty. }
  split; [exact Hfirst|]. split; [|split].
  - intros row. rewrite Hfirst.
    destruct (List.find _ users) as [u|] eqn:Hfind; [|discriminate].
    intros [= <-]. apply List.find_some in Hfind as [_ Heq].
    by apply String.eqb_eq in Heq.
  - rewrite register_all_successes, Hempty, lookup_empty.
    destruct (List.find _ users); lia.
  - intros req st1 row Hrow. rewrite serve_users_db.
    destruct (route req); try exact Hrow.
    by rewrite register_user_lookup, Hrow.
Qed.

Lemma raise_for_status_error (response : Response) :
  400 <= status_code response < 600 ->
  exists msg, raise_for_status response = Raise (RequestException msg).
Proof.
  intros Hs. unfold raise_for_status.
  destruct (Z.leb_spec 400 (status_code response)),
    (Z.ltb_spec (status_code response) 500),
    (Z.leb_spec 500 (status_code response)),
    (Z.ltb_spec (status_code response) 600); simpl; eauto; lia.
Qed.

Lemma raise_for_status_ok (response : Response) :
  ~ 400 <= status_code response < 600 ->
  raise_for_status response = Return tt.
Proof.
  intros Hs. unfold raise_for_status.
  destruct (Z.leb_spec 400 (status_code response)),
    (Z.ltb_spec (status_code response) 500),
    (Z.leb_spec 500 (status_code response)),
    (Z.ltb_spec (status_code response) 600); simpl; try reflexivity; lia.
Qed.

Lemma handled_product (r : Route) (current_user : UserRow) st :
  is_product_route r = true ->
  handled r current_user st =
    (respond (success_status (endpoint r))
       (product_outcome r (data_service (sent st) (product_call r))),
     after_call st (product_call r)).
Proof.
  intros Hr. unfold handled.
  destruct r; try discriminate Hr;
    cbn [endpoint run_handler success_status product_outcome product_call];
    unfold fmap at 1, M_fmap.
  - rewrite response_model_run, get_products_run.
    by destruct (validated _ _).
  - rewrite response_model_run, get_product_run.
    by destruct (validated _ _).
  - rewrite response_model_run, create_product_run.
    by destruct (validated _ _).
  - rewrite response_model_run, update_product_run.
    by destruct (validated _ _).
  - rewrite delete_product_run. by destruct (or_503 _).
Qed.

Ltac by_route r Hr :=
  destruct r; try discriminate Hr;
  cbn [endpoint success_status product_outcome by_id is_delete] in *.

(** C5, as amended: every product operation makes one upstream call, and
    - a transport failure of the call gives 503 whose detail carries the
      error text;
    - an upstream 404 gives 404 on the by-id operations (get, update,
      delete of one product);
    - any other upstream 4xx or 5xx status, and 404 on list and create,
      gives 503 whose detail carries the text of the upstream error;
    - an upstream status outside 400..599, 200 among them, gives on delete
      204 with no body; on the other operations the decoded upstream body
      goes through the route's response model (ProductResponse, a list of
      them on the list operation): the answer is the route's success status
      with the validated content when the model accepts the body, and 500
      when it rejects it. *)
Theorem C5_upstream_mapping (r : Route) (current_user : UserRow) st :
  is_product_route r = true ->
  exists req,
    let out := data_service (sent st) req in
    let answer := (handled r current_user st).1 in
    (handled r current_user st).2 = after_call st req
    ∧ (forall msg, out = Raise (RequestException msg) ->
         answer = unavailable msg)
    ∧ (forall response, out = Return response ->
         status_code response = 404 -> by_id r = true ->
         http_status answer = 404)
    ∧ (forall response, out = Return response ->
         400 <= status_code response < 600 ->
         status_code response ≠ 404 ∨ by_id r = false ->
         exists e, raise_for_status response = Raise e
                   ∧ answer = unavailable (str_exn e))
    ∧ (forall response, out = Return response ->
         ~ 400 <= status_code response < 600 -> is_delete r = true ->
         answer = {| http_status := 204; http_body := NoBody |})
    ∧ (forall response j, out = Return response ->
         ~ 400 <= status_code response < 600 -> is_delete r = false ->
         resp_json response = Return j ->
         answer = match response_model_of r j with
                  | Some content =>
                      {| http_status := success_status (endpoint r);
                         http_body := JsonBody content |}
                  | None => internal_error
                  end).
Proof.
  intros Hr. exists (product_call r). cbv zeta.
  rewrite (handled_product r current_user st Hr). cbn [fst snd].
  split; [reflexivity|].
  generalize (data_service (sent st) (product_call r)). intros out.
  split; [|split; [|split; [|split]]].
  - intros msg ->. by by_route r Hr.
  - intros response -> H404 Hid.
    by_route r Hr; try discriminate Hid;
      unfold checked_by_id; rewrite H404; reflexivity.
  - intros response -> Hrange Hwhich.
    destruct (raise_for_status_error response Hrange) as [msg Hmsg].
    exists (RequestException msg). split; [exact Hmsg|].
    assert (Hne : by_id r = true -> (status_code response =? 404) = false).
    { intros Hid. destruct Hwhich as [Hne|Hno]; [lia|congruence]. }
    by_route r Hr; unfold checked_by_id, checked;
      rewrite ?Hne by reflexivity; rewrite Hmsg; reflexivity.
  - intros response -> Hrange Hdel.
    pose proof (raise_for_status_ok response Hrange) as Hok.
    assert (Hne : (status_code response =? 404) = false) by lia.
    by_route r Hr; try discriminate Hdel.
    unfold checked_by_id, checked. rewrite Hne, Hok. reflexivity.
  - intros response j -> Hrange Hdel Hj.
    pose proof (raise_for_status_ok response Hrange) as Hok.
    assert (Hne : (status_code response =? 404) = false) by lia.
    by_route r Hr; try discriminate Hdel;
      unfold checked_by_id, checked; rewrite ?Hne, Hok, Hj;
      cbn [or_503 validated];
      match goal with |- context [response_model_of ?r ?v] =>
        destruct (response_model_of r v) end; reflexivity.
Qed.

(** C6: GET /health answers 200 whatever the probe of the data service
    does: healthy and connected when the upstream status is 200, degraded
    and unavailable for any other status, and degraded with the message of
    the exception when the probe raises, whatever the exception. *)
Theorem C6_health_never_errors (a : option token) st :
  serve {| authorization := a; route := GET_health |} st =
    ({| http_status := 200;
        http_body :=
          DictBody
            match data_service (sent st) list_request with
            | Return response =>
                if status_code response =? 200 then healthy
                else degraded_unavailable
            | Raise e => degraded_error e
            end |},
     after_call st list_request).
Proof.
  unfold serve; cbn [route endpoint]. unfold fmap, M_fmap.
  unfold health_check, try_except_Exception, mbind, M_bind, requests_get,
    send, after_call, list_request.
  destruct (data_service _ _) as [response|e]; [|reflexivity].
  by destruct (status_code response =? 200).
Qed.

Lemma serve_guarded (req : HttpRequest) st :
  protected (route req) = true ->
  serve req st =
    match get_current_user (authorization req) st with
    | (Return current_user, st') => handled (route req) current_user st'
    | (Raise _, st') => (unauthenticated, st')
    end.
Proof.
  intros Hp. unfold serve, handled.
  destruct req as [a r]; cbn [route authorization] in *.
  destruct r; try discriminate Hp;
    cbn [endpoint run_handler success_status];
    unfold mbind at 1, M_bind at 1;
    (destruct (get_current_user_cases a st) as [[u ->]| ->];
     [reflexivity|reflexivity]).
Qed.

Lemma verify_token_state (t : token) st : (verify_token t st).2 = st.
Proof.
  unfold verify_token. destruct t as [raw|sub exp sg]; [reflexivity|].
  destruct (negb _); [reflexivity|]. by destruct (exp <? clock st).
Qed.

(** C7: the guard sits on exactly the product create, update and delete
    endpoints and on "who am I", and on no other endpoint, the product
    reads included.  On a guarded endpoint a request without a bearer
    token, with one that fails verification, or with one that resolves to
    no user, is answered 401 and the handler has not run: no upstream call
    is made and the state is as before.  When the guard resolves a user,
    the answer is the handler's, run with that user.  On the other
    endpoints the Authorization header has no bearing on the answer. *)
Theorem C7_auth_guard (req : HttpRequest) st :
  is_guarded (endpoint (route req)) = protected (route req)
  ∧ (protected (route req) = true ->
       (authorization req = None -> serve req st = (unauthenticated, st))
       ∧ (forall t, authorization req = Some t ->
            (verify_token t st).1 = Raise credentials_exception ->
            serve req st = (unauthenticated, st))
       ∧ ((get_current_user (authorization req) st).1
            = Raise credentials_exception ->
          serve req st = (unauthenticated, st))
       ∧ (forall current_user,
            (get_current_user (authorization req) st).1
              = Return current_user ->
            serve req st = handled (route req) current_user st))
  ∧ (protected (route req) = false ->
       forall a,
         serve {| authorization := a; route := route req |} st
         = serve req st).
Proof.
  split; [by destruct (route req)|]. split.
  - intros Hp. rewrite (serve_guarded req st Hp).
    split; [by intros ->|]. split; [|split].
    + intros t -> Hbad. unfold get_current_user, mbind, M_bind.
      pose proof (verify_token_state t st) as Hst.
      destruct (verify_token t st) as [[sub|e] st']; simpl in *;
        [discriminate Hbad|]. by subst st'.
    + destruct (get_current_user_cases (authorization req) st)
        as [[u ->]| ->]; [discriminate|reflexivity].
    + intros current_user.
      destruct (get_current_user_cases (authorization req) st)
        as [[u ->]| ->]; [by intros [= ->]|discriminate].
  - intros Hp a. unfold serve. cbn [route].
    by destruct (route req).
Qed.

(** C8: POST /token fails with 401 exactly when the username is not in
    the user store or the password does not verify against the stored
    hash; otherwise it answers 200 with token_type "bearer" and the access
    token issued for the username as subject. *)
Theorem C8_login (a : option token) (name password : string) st :
  let answer :=
    serve {| authorization := a; route := POST_token name password |} st in
  (http_status answer.1 = 401 <->
     users_db st !! name = None
     ∨ exists user, users_db st !! name = Some user
                    ∧ verify_password password (hashed_password user)
                      = false)
  ∧ (http_status answer.1 ≠ 401 ->
     exists t,
       create_access_token name st = (Return t, st)
       ∧ t = Signed name (clock st + ACCESS_TOKEN_EXPIRE)
               (sign SECRET_KEY name (clock st + ACCESS_TOKEN_EXPIRE))
       ∧ answer =
           ({| http_status := 200;
               http_body := TokenBody {| access_token := t;
                                         token_type := "bearer" |} |},
            st)).
Proof.
  unfold serve; cbn [route endpoint]. unfold fmap, M_fmap.
  unfold login_for_access_token.
  destruct (users_db st !! name) as [user|] eqn:Huser.
  - destruct (verify_password password (hashed_password user)) eqn:Hpw;
      cbn.
    + split.
      * split; [discriminate|]. intros [?|(u & [= <-] & Hu)]; congruence.
      * intros _. eexists. split; [reflexivity|]. split; reflexivity.
    + split; [|done]. split; [|done]. intros _. right. eauto.
  - cbn. split; [|done]. split; [|done]. intros _. by left.
Qed.

(** C9: a token issued for a subject verifies to that subject at any time
    before its expiry, the time of issue plus the fixed lifetime, and
    fails verification with Unauthenticated at any time after it. *)
Theorem C9_token_roundtrip (subject : string) (st later : State) :
  exists t,
    create_access_token subject st = (Return t, st)
    ∧ (clock later < clock st + ACCESS_TOKEN_EXPIRE ->
       verify_token t later = (Return subject, later))
    ∧ (clock st + ACCESS_TOKEN_EXPIRE < clock later ->
       verify_token t later = (Raise credentials_exception, later)
       ∧ http_status (respond 200 (Raise credentials_exception)) = 401).
Proof.
  eexists. split; [reflexivity|]. unfold verify_token.
  rewrite String.eqb_refl. cbn [negb]. split.
  - intros Hbefore.
    by destruct (Z.ltb_spec (clock st + ACCESS_TOKEN_EXPIRE) (clock later));
      [lia|].
  - intros Hafter.
    by destruct (Z.ltb_spec (clock st + ACCESS_TOKEN_EXPIRE) (clock later));
      [|lia].
Qed.

(** ** Further properties of the handlers *)

Lemma serve_public (req : HttpRequest) (current_user : UserRow) st :
  protected (route req) = false ->
  serve req st = handled (route req) current_user st.
Proof.
  intros Hp. unfold serve, handled.
  destruct req as [a r]; cbn [route authorization] in *.
  by destruct r; try discriminate Hp.
Qed.

Lemma serve_all_cons req reqs st :
  serve_all (req :: reqs) st =
    ((serve req st).1 :: (serve_all reqs (serve req st).2).1,
     (serve_all reqs (serve req st).2).2).
Proof.
  cbn [serve_all]. destruct (serve req st) as [resp st'].
  cbn [fst snd]. by destruct (serve_all reqs st').
Qed.

Lemma handled_local (r : Route) (current_user : UserRow) st :
  is_local_route r = true ->
  sent (handled r current_user st).2 = sent st.
Proof.
  intros Hr. unfold handled.
  destruct r; try discriminate Hr;
    cbn [endpoint run_handler]; unfold fmap, M_fmap.
  - reflexivity.
  - rewrite (surjective_pairing (register_user user st)).
    destruct (users_db st !! uc_username user) eqn:Hu.
    + by rewrite register_user_taken by eauto.
    + by rewrite register_user_fresh.
  - unfold login_for_access_token.
    destruct (users_db st !! username0) as [row|]; [|reflexivity].
    by destruct (negb _).
  - reflexivity.
Qed.

Lemma handled_health (current_user : UserRow) st :
  (handled GET_health current_user st).2 = after_call st list_request.
Proof.
  unfold handled; cbn [endpoint run_handler]. unfold fmap, M_fmap.
  unfold health_check, try_except_Exception, mbind, M_bind, requests_get,
    send, after_call, list_request.
  destruct (data_service _ _) as [response|e]; [|reflexivity].
  by destruct (status_code response =? 200).
Qed.

Lemma handled_sent (r : Route) (current_user : UserRow) st :
  exists calls,
    sent (handled r current_user st).2 = sent st ++ calls
    ∧ (length calls <= 1)%nat.
Proof.
  destruct (is_product_route r) eqn:Hprod.
  - exists [product_call r]. by rewrite handled_product.
  - destruct (is_local_route r) eqn:Hlocal.
    + exists []. rewrite handled_local by done.
      by rewrite app_nil_r; split; [|cbn; lia].
    + destruct r; try discriminate.
      exists [list_request]. by rewrite handled_health.
Qed.

Lemma serve_sent (req : HttpRequest) st :
  exists calls,
    sent (serve req st).2 = sent st ++ calls ∧ (length calls <= 1)%nat.
Proof.
  destruct (protected (route req)) eqn:Hp.
  - rewrite serve_guarded by done.
    destruct (get_current_user_cases (authorization req) st)
      as [[u ->]| ->]; [apply handled_sent|].
    exists []. by rewrite app_nil_r; split; [|cbn; lia].
  - rewrite (serve_public req demo.alice_row) by done. apply handled_sent.
Qed.

(** X1: the root, registration, login and "who am I" endpoints never call
    the data service: whatever the request and the state, the list of
    upstream calls is the same after the request as before. *)
Theorem X1_local_routes_make_no_upstream_call (req : HttpRequest) st :
  is_local_route (route req) = true ->
  sent (serve req st).2 = sent st.
Proof.
  intros Hlocal. destruct (protected (route req)) eqn:Hp.
  - rewrite serve_guarded by done.
    destruct (get_current_user_cases (authorization req) st)
      as [[u ->]| ->]; [by apply handled_local|reflexivity].
  - rewrite (serve_public req demo.alice_row) by done.
    by apply handled_local.
Qed.

(** X2: no request makes more than one upstream call and none is ever
    retracted: over any run of requests the calls made before are a prefix
    of the calls made after, and at most one call is added per request. *)
Theorem X2_at_most_one_upstream_call_per_request
    (reqs : list HttpRequest) st :
  exists calls,
    sent (serve_all reqs st).2 = sent st ++ calls
    ∧ (length calls <= length reqs)%nat.
Proof.
  revert st. induction reqs as [|req reqs IH]; intros st.
  - exists []. by rewrite app_nil_r.
  - rewrite serve_all_cons. cbn [snd].
    destruct (serve_sent req st) as (c1 & Hc1 & Hl1).
    destruct (IH (serve req st).2) as (c2 & Hc2 & Hl2).
    exists (c1 ++ c2). rewrite Hc2, Hc1, app_assoc. split; [reflexivity|].
    rewrite length_app. cbn [length]. lia.
Qed.

Lemma ProductCreate_dict_dom (product : ProductCreate) :
  dom (ProductCreate_dict product) = ProductUpdate_fields.
Proof using Type.
  no_env. unfold ProductCreate_dict, ProductUpdate_fields.
  rewrite !dom_insert_L, dom_singleton_L. set_solver.
Qed.

(** X3: POST /products forwards, in one POST to {base}/products, a body
    with all five product fields and nothing else, each with the value of
    the validated request body. *)
Theorem X3_create_forwards_whole_body (product : ProductCreate)
    (current_user : UserRow) st :
  exists body,
    sent (create_product product current_user st).2
      = sent st ++ [create_request body]
    ∧ dom body = ProductUpdate_fields
    ∧ body !! "name" = Some (JStr (pc_name product))
    ∧ body !! "description" = Some (JStr (pc_description product))
    ∧ body !! "price" = Some (JFloat (pc_price product))
    ∧ body !! "stock_quantity" = Some (JInt (pc_stock_quantity product))
    ∧ body !! "category" = Some (JStr (pc_category product)).
Proof using DATA_SERVICE_URL data_service.
  clear float_repr get_password_hash verify_password SECRET_KEY sign
    ACCESS_TOKEN_EXPIRE.
  exists (ProductCreate_dict product). rewrite create_product_run.
  split; [reflexivity|]. split; [apply ProductCreate_dict_dom|].
  repeat split; reflexivity.
Qed.

Lemma serve_POST_token (a : option token) (name password : string) st :
  serve (login_of a name password) st =
    (match users_db st !! name with
     | None => bad_login
     | Some user =>
         if verify_password password (hashed_password user) then
           {| http_status := 200;
              http_body :=
                TokenBody
                  {| access_token :=
                       Signed name (clock st + ACCESS_TOKEN_EXPIRE)
                         (sign SECRET_KEY name
                            (clock st + ACCESS_TOKEN_EXPIRE));
                     token_type := "bearer" |} |}
         else bad_login
     end, st).
Proof.
  unfold serve, login_of; cbn [route endpoint]. unfold fmap, M_fmap.
  unfold login_for_access_token.
  destruct (users_db st !! name) as [user|]; [|reflexivity].
  by destruct (verify_password password (hashed_password user)).
Qed.

(** X4: POST /token reads the user store and changes nothing: the state
    after it is the state before it, whether it succeeds or not.  Its
    failure answer is one and the same for an unknown username and for a
    wrong password, so it does not tell which of the two was wrong. *)
Theorem X4_login_is_read_only_and_failure_uniform
    (a : option token) (name password : string) st :
  (serve (login_of a name password) st).2 = st
  ∧ (http_status (serve (login_of a name password) st).1 ≠ 200 ->
     (serve (login_of a name password) st).1 = bad_login).
Proof.
  rewrite serve_POST_token. cbn [fst snd]. split; [reflexivity|].
  destruct (users_db st !! name) as [user|]; [|reflexivity].
  by destruct (verify_password password (hashed_password user)).
Qed.

(** X5: registration followed by login.  When the hasher verifies the
    password against its own hash, a user who has just registered under a
    free username logs in with that password and gets 200 with a bearer
    token for the username; any password the hasher rejects against the
    stored hash gets the 401 of bad credentials. *)
Theorem X5_register_then_login (user : UserCreate) (a a' : option token) st :
  users_db st !! uc_username user = None ->
  verify_password (uc_password user) (get_password_hash (uc_password user))
    = true ->
  let st1 := (serve (registration_of a user) st).2 in
  (exists t,
     (serve (login_of a' (uc_username user) (uc_password user)) st1).1
       = {| http_status := 200;
            http_body := TokenBody {| access_token := t;
                                      token_type := "bearer" |} |})
  ∧ (forall wrong,
       verify_password wrong (get_password_hash (uc_password user)) = false ->
       (serve (login_of a' (uc_username user) wrong) st1).1 = bad_login).
Proof.
  intros Hfree Hhash st1. subst st1. unfold registration_of.
  rewrite serve_POST_users, (register_user_fresh _ _ Hfree). cbn [snd].
  split.
  - eexists. rewrite serve_POST_token. cbn [fst users_db].
    rewrite lookup_insert_eq. cbn [hashed_password row_of].
    rewrite Hhash. reflexivity.
  - intros wrong Hwrong. rewrite serve_POST_token. cbn [fst users_db].
    rewrite lookup_insert_eq. cbn [hashed_password row_of].
    by rewrite Hwrong.
Qed.

(** X6: registrations under different usernames do not interfere: in
    either order each has the outcome it has on its own, and the user store
    ends up the same. *)
Theorem X6_registrations_commute (u1 u2 : UserCreate) st :
  uc_username u1 ≠ uc_username u2 ->
  (register_all [u1; u2] st).1
    = [(register_user u1 st).1; (register_user u2 st).1]
  ∧ (register_all [u2; u1] st).1
    = [(register_user u2 st).1; (register_user u1 st).1]
  ∧ users_db (register_all [u1; u2] st).2
    = users_db (register_all [u2; u1] st).2.
Proof.
  intros Hne.
  assert (Hother : forall u v : UserCreate,
            uc_username u ≠ uc_username v ->
            (register_user v (register_user u st).2).1
            = (register_user v st).1).
  { intros u v Huv. rewrite !register_user_outcome, register_user_lookup.
    destruct (users_db st !! uc_username v); [reflexivity|].
    by destruct (String.eqb_spec (uc_username u) (uc_username v)). }
  rewrite !register_all_cons. cbn [fst snd register_all].
  rewrite (Hother u1 u2 Hne), (Hother u2 u1) by congruence.
  split; [reflexivity|]. split; [reflexivity|].
  apply map_eq. intros k. rewrite !register_user_lookup.
  destruct (users_db st !! k); [reflexivity|].
  destruct (String.eqb_spec (uc_username u1) k),
    (String.eqb_spec (uc_username u2) k); congruence.
Qed.

Lemma serve_lookup (req : HttpRequest) st (k : string) :
  users_db (serve req st).2 !! k =
    match users_db st !! k with
    | Some row => Some row
    | None =>
        match route req with
        | POST_users user =>
            if String.eqb (uc_username user) k then Some (row_of user)
            else None
        | _ => None
        end
    end.
Proof.
  rewrite serve_users_db.
  destruct (route req); try (by destruct (users_db st !! k)).
  apply register_user_lookup.
Qed.

Lemma serve_all_lookup (reqs : list HttpRequest) st (k : string) (row : UserRow) :
  users_db (serve_all reqs st).2 !! k = Some row ->
  users_db st !! k = Some row
  ∨ exists user, POST_users user ∈ route <$> reqs
                 ∧ uc_username user = k ∧ row = row_of user.
Proof.
  revert st. induction reqs as [|req reqs IH]; intros st; [by left|].
  rewrite serve_all_cons. cbn [snd]. intros Hrow.
  destruct (IH _ Hrow) as [Hstep|(user & Hin & Hk & Hr)].
  - rewrite serve_lookup in Hstep.
    destruct (users_db st !! k); [by left|].
    destruct (route req) eqn:Hroute; try discriminate Hstep.
    destruct (String.eqb_spec (uc_username user) k); [|discriminate].
    injection Hstep as <-. right. exists user. rewrite fmap_cons, Hroute.
    split; [apply list_elem_of_here|done].
  - right. exists user. rewrite fmap_cons.
    split; [by apply list_elem_of_further|done].
Qed.

Lemma serve_all_keeps (reqs : list HttpRequest) st (k : string) :
  is_Some (users_db st !! k) ->
  is_Some (users_db (serve_all reqs st).2 !! k).
Proof.
  revert st. induction reqs as [|req reqs IH]; intros st Hsome; [done|].
  rewrite serve_all_cons. cbn [snd]. apply IH. rewrite serve_lookup.
  destruct Hsome as [row ->]. eauto.
Qed.

(** X7: the user store over any run of requests, of whatever kind, from
    the empty store: every row in it was made by a registration request of
    the run, sits under its own username, is not disabled and holds the
    hash of that request's password; and every username a registration
    request of the run asked for is in the store at the end. *)
Theorem X7_store_holds_the_registrations (reqs : list HttpRequest) st :
  users_db st = ∅ ->
  (forall k row,
     users_db (serve_all reqs st).2 !! k = Some row ->
     username row = k ∧ disabled row = false
     ∧ exists user, POST_users user ∈ route <$> reqs
                    ∧ uc_username user = k
                    ∧ email row = uc_email user
                    ∧ hashed_password row
                      = get_password_hash (uc_password user))
  ∧ (forall user,
       POST_users user ∈ route <$> reqs ->
       is_Some (users_db (serve_all reqs st).2 !! uc_username user)).
Proof.
  intros Hempty. split.
  - intros k row Hrow.
    destruct (serve_all_lookup _ _ _ _ Hrow) as [H0|(user & Hin & Hk & ->)].
    + by rewrite Hempty, lookup_empty in H0.
    + split; [exact Hk|]. split; [reflexivity|]. by exists user.
  - clear Hempty. revert st.
    induction reqs as [|req reqs IH]; intros st user Hin.
    + by apply elem_of_nil in Hin.
    + rewrite serve_all_cons. cbn [snd].
      rewrite fmap_cons in Hin. apply elem_of_cons in Hin as [Hhere|Hlater].
      * apply serve_all_keeps. rewrite serve_lookup, <- Hhere.
        destruct (users_db st !! uc_username user); [eauto|].
        rewrite String.eqb_refl. eauto.
      * by apply IH.
Qed.

(** X8: the product handlers catch [requests.RequestException] and
    nothing else: when the upstream call raises any other exception, the
    request is answered 500, not 503, after that one call. *)
Theorem X8_other_exceptions_are_not_caught (r : Route)
    (current_user : UserRow) st (msg : string) :
  is_product_route r = true ->
  data_service (sent st) (product_call r) = Raise (Exception msg) ->
  handled r current_user st =
    (internal_error, after_call st (product_call r)).
Proof.
  intros Hr Hout. rewrite (handled_product r current_user st Hr), Hout.
  by by_route r Hr.
Qed.

(** X9: an upstream answer that is no error but whose body does not decode.
    Delete never decodes the body and answers 204 all the same; the other
    product operations answer 503 with the decoder's message when the
    decoder raises a [RequestException], and 500 when it raises any other
    exception. *)
Theorem X9_undecodable_body (r : Route) (current_user : UserRow) st
    (response : Response) (e : exn) :
  is_product_route r = true ->
  data_service (sent st) (product_call r) = Return response ->
  ~ 400 <= status_code response < 600 ->
  resp_json response = Raise e ->
  (is_delete r = true ->
   (handled r current_user st).1
     = {| http_status := 204; http_body := NoBody |})
  ∧ (is_delete r = false -> forall msg,
       (e = RequestException msg ->
        (handled r current_user st).1 = unavailable msg)
       ∧ (e = Exception msg ->
          (handled r current_user st).1 = internal_error)).
Proof.
  intros Hr Hout Hrange He.
  rewrite (handled_product r current_user st Hr), Hout. cbn [fst].
  pose proof (raise_for_status_ok response Hrange) as Hok.
  assert (Hne : (status_code response =? 404) = false) by lia.
  split.
  - intros Hdel. by_route r Hr; try discriminate Hdel.
    unfold checked_by_id, checked. by rewrite Hne, Hok.
  - intros Hdel msg.
    split; intros ->;
      by_route r Hr; try discriminate Hdel;
      unfold checked_by_id, checked; rewrite ?Hne, Hok, He; reflexivity.
Qed.

(** X10: on the by-id operations an upstream 404 is answered 404 with the
    detail "Product with ID {id} not found" for the id of the request,
    whatever else the upstream response holds: the check comes before
    [raise_for_status], so the 404 is not turned into a 503. *)
Theorem X10_not_found_names_the_product (r : Route) (product_id : Z)
    (current_user : UserRow) st (response : Response) :
  route_product_id r = Some product_id ->
  data_service (sent st) (product_call r) = Return response ->
  status_code response = 404 ->
  (handled r current_user st).1 =
    {| http_status := 404;
       http_body := DetailBody ("Product with ID " +:+ pretty product_id
                                +:+ " not found") |}.
Proof.
  intros Hid Hout H404.
  assert (Hr : is_product_route r = true) by (by destruct r).
  rewrite (handled_product r current_user st Hr), Hout. cbn [fst].
  by_route r Hr; try discriminate Hid; injection Hid as ->;
    unfold checked_by_id; rewrite H404; reflexivity.
Qed.





(** X12: requests for different product ids never go to the same upstream
    URL: the call made for one id differs from the call made for any other
    id. *)
Theorem X12_distinct_ids_distinct_calls (id1 id2 : Z) st :
  id1 ≠ id2 ->
  sent (get_product id1 st).2 ≠ sent (get_product id2 st).2
  ∧ forall current_user,
      sent (delete_product id1 current_user st).2
      ≠ sent (delete_product id2 current_user st).2.
Proof.
  intros Hne.
  assert (Hurl : DATA_SERVICE_URL +:+ "/products/" +:+ format id1
                 ≠ DATA_SERVICE_URL +:+ "/products/" +:+ format id2).
  { intros Heq. apply (inj (String.app DATA_SERVICE_URL)) in Heq.
    apply (inj (String.app "/products/")) in Heq.
    by apply (inj pretty) in Heq. }
  split; [|intros current_user];
    rewrite ?get_product_run, ?delete_product_run; cbn [snd];
    unfold after_call; cbn [sent]; intros Heq;
    apply app_inv_head in Heq; injection Heq as Heq; contradiction.
Qed.

Lemma full_update_body (product : ProductCreate) :
  ProductUpdate_dict_exclude_unset
    (ProductUpdate_parse
       (Given (Some (pc_name product)))
       (Given (Some (pc_description product)))
       (Given (Some (pc_price product)))
       (Given (Some (pc_stock_quantity product)))
       (Given (Some (pc_category product))))
  = ProductCreate_dict product.
Proof using Type.
  no_env. unfold ProductUpdate_dict_exclude_unset.
  change (ProductUpdate_dict (ProductUpdate_parse _ _ _ _ _))
    with (ProductCreate_dict product).
  apply map_filter_id. intros k v Hk.
  assert (Hdom : k ∈ dom (ProductCreate_dict product))
    by (apply elem_of_dom; eauto).
  rewrite ProductCreate_dict_dom in Hdom.
  cbn [fst pu_fields_set ProductUpdate_parse given_key].
  unfold ProductUpdate_fields in Hdom. set_solver.
Qed.

(** X13: an update that sets all five fields to values forwards the very
    body a create of the same values forwards. *)
Theorem X13_full_update_sends_the_create_body
    (product : ProductCreate) (product_id : Z) (current_user : UserRow) st :
  exists body,
    sent (create_product product current_user st).2
      = sent st ++ [create_request body]
    ∧ sent (update_product product_id
              (ProductUpdate_parse
                 (Given (Some (pc_name product)))
                 (Given (Some (pc_description product)))
                 (Given (Some (pc_price product)))
                 (Given (Some (pc_stock_quantity product)))
                 (Given (Some (pc_category product))))
              current_user st).2
      = sent st ++ [update_request product_id body].
Proof using DATA_SERVICE_URL data_service.
  clear float_repr get_password_hash verify_password SECRET_KEY sign
    ACCESS_TOKEN_EXPIRE.
  exists (ProductCreate_dict product).
  rewrite create_product_run, update_product_run.
  split; [reflexivity|]. unfold after_call, update_request. cbn [snd sent].
  by rewrite full_update_body.
Qed.

End Gateway.

(** ** The properties on the concrete deployment *)

Module examples.
Import demo.

Abbreviation serve_with svc :=
  (serve URL svc float_repr get_password_hash verify_password SECRET_KEY
     sign ACCESS_TOKEN_EXPIRE ProductResponse_model).
Abbreviation handled_with svc :=
  (handled URL svc float_repr get_password_hash verify_password SECRET_KEY
     sign ACCESS_TOKEN_EXPIRE ProductResponse_model).
Abbreviation ok := (answers 200 "OK" (Return (JList []))).
Abbreviation not_found :=
  (answers 404 "Not Found" (Return (JStr "no such product"))).

(** A list request with a non-empty category and a max_price goes to the
    category path. *)
Lemma C1_filter_dispatch_witness :
  (forall c, Some "books" = Some c -> c ≠ EmptyString)
  ∧ sent (get_products URL ok float_repr (Some "books") (Some five)
            started).2
    = [category_request URL "books"].
Proof.
  assert (H1 : forall c : string, Some "books" = Some c -> c ≠ EmptyString).
  { intros c [= <-]. discriminate. }
  split; [exact H1|].
  apply (C1_filter_dispatch URL ok float_repr (Some "books") (Some five)
           started H1).
  discriminate.
Defined.

(** C1 as stated fails: GET /products?category=&max_price=5.0 supplies both
    filters and is forwarded to the price path, and
    GET /products?max_price=0.0 supplies only max_price and is forwarded to
    the list path. *)
Lemma C1_counterexample :
  sent (get_products URL ok float_repr (Some EmptyString) (Some five)
          started).2
    = [price_request URL float_repr five]
  ∧ sent (get_products URL ok float_repr (Some EmptyString) (Some five)
            started).2
    ≠ [category_request URL EmptyString]
  ∧ sent (get_products URL ok float_repr None (Some zero) started).2
    = [list_request URL]
  ∧ sent (get_products URL ok float_repr None (Some zero) started).2
    ≠ [price_request URL float_repr zero].
Proof.
  split; [vm_compute; reflexivity|].
  split; [vm_compute; discriminate|].
  split; [vm_compute; reflexivity|].
  vm_compute; discriminate.
Qed.

Lemma C3_register_twice_witness :
  users_db started !! uc_username alice = None
  ∧ http_status <$>
      (serve_all URL ok float_repr get_password_hash verify_password
         SECRET_KEY sign ACCESS_TOKEN_EXPIRE ProductResponse_model
         [ {| authorization := None; route := POST_users alice |};
           {| authorization := None; route := POST_users alice |} ]
         started).1
    = [201; 400].
Proof.
  assert (H1 : users_db started !! uc_username alice = None)
    by reflexivity.
  split; [exact H1|].
  apply (C3_register_twice URL ok float_repr get_password_hash
           verify_password SECRET_KEY sign ACCESS_TOKEN_EXPIRE
           ProductResponse_model
           alice alice None None started H1 eq_refl).
Defined.

Lemma C4_username_unique_witness :
  users_db started = ∅
  ∧ users_db (register_all get_password_hash [alice; alice] started).2
      !! "alice"
    = Some alice_row.
Proof.
  split; [reflexivity|].
  apply (C4_username_unique URL ok float_repr get_password_hash
           verify_password SECRET_KEY sign ACCESS_TOKEN_EXPIRE
           ProductResponse_model
           [alice; alice] "alice" started eq_refl).
Defined.

(** C5 as stated fails: an upstream 404 on the list operation is answered
    503; an upstream 200 on delete is answered 204 without the upstream
    body; an upstream 304, not 2xx and not 404, is answered 204 on delete
    as well. *)
Lemma C5_counterexample :
  (serve_with not_found
     {| authorization := None; route := GET_products None None |}
     started).1
    = unavailable
        "404 Client Error: Not Found for url: http://localhost:8081/api/products"
  ∧ (serve_with (answers 200 "OK" (Return (JStr "deleted")))
       {| authorization := Some alice_token; route := DELETE_products_id 7 |}
       with_alice).1
    = {| http_status := 204; http_body := NoBody |}
  ∧ (serve_with (answers 304 "Not Modified" (Return JNull))
       {| authorization := Some alice_token; route := DELETE_products_id 7 |}
       with_alice).1
    = {| http_status := 204; http_body := NoBody |}.
Proof.
  split; [vm_compute; reflexivity|].
  split; vm_compute; reflexivity.
Qed.

(** The response model at work on the list operation: an upstream 200
    whose body is not a list is answered 500, and a product in the list
    loses the keys that are not fields of ProductResponse. *)
Lemma list_goes_through_the_response_model :
  (serve_with (answers 200 "OK" (Return (JDict {[ "a" := JInt 1 ]})))
     {| authorization := None; route := GET_products None None |}
     started).1 = internal_error
  ∧ (serve_with
       (answers 200 "OK"
          (Return (JList [JDict {[ "id" := JInt 1; "name" := JStr "pen";
                                   "description" := JStr "blue";
                                   "price" := JFloat five;
                                   "stock_quantity" := JInt 3;
                                   "category" := JStr "office";
                                   "shelf" := JStr "B2" ]}])))
       {| authorization := None; route := GET_products None None |}
       started).1
    = {| http_status := 200;
         http_body :=
           JsonBody
             (JList [JDict {[ "id" := JInt 1; "name" := JStr "pen";
                              "description" := JStr "blue";
                              "price" := JFloat five;
                              "stock_quantity" := JInt 3;
                              "category" := JStr "office" ]}]) |}.
Proof. split; vm_compute; reflexivity. Qed.

Lemma C5_upstream_mapping_witness :
  is_product_route (GET_products_id 3) = true
  ∧ http_status (handled_with not_found (GET_products_id 3) alice_row
                   started).1 = 404.
Proof.
  split; [reflexivity|].
  destruct (C5_upstream_mapping URL not_found float_repr get_password_hash
              verify_password SECRET_KEY sign ACCESS_TOKEN_EXPIRE
              ProductResponse_model
              (GET_products_id 3) alice_row started eq_refl)
    as (req & _ & _ & H404 & _).
  exact (H404 _ eq_refl eq_refl eq_refl).
Defined.

Lemma C7_auth_guard_witness :
  protected (DELETE_products_id 7) = true
  ∧ serve_with ok
      {| authorization := None; route := DELETE_products_id 7 |} with_alice
    = (unauthenticated, with_alice).
Proof.
  split; [reflexivity|].
  destruct (C7_auth_guard URL ok float_repr get_password_hash
              verify_password SECRET_KEY sign ACCESS_TOKEN_EXPIRE
              ProductResponse_model
              {| authorization := None; route := DELETE_products_id 7 |}
              with_alice) as (_ & Hguard & _).
  destruct (Hguard eq_refl) as (Habsent & _).
  exact (Habsent eq_refl).
Defined.

Lemma C8_login_witness :
  http_status
    (serve_with ok
       {| authorization := None; route := POST_token "alice" "wonderland" |}
       with_alice).1 ≠ 401
  ∧ (serve_with ok
       {| authorization := None; route := POST_token "alice" "wonderland" |}
       with_alice).1
    = {| http_status := 200;
         http_body := TokenBody {| access_token := alice_token;
                                   token_type := "bearer" |} |}.
Proof.
  assert (H1 : http_status
            (serve_with ok
               {| authorization := None;
                  route := POST_token "alice" "wonderland" |}
               with_alice).1 ≠ 401).
  { vm_compute. discriminate. }
  split; [exact H1|].
  destruct (C8_login URL ok float_repr get_password_hash verify_password
              SECRET_KEY sign ACCESS_TOKEN_EXPIRE
              ProductResponse_model None "alice" "wonderland"
              with_alice) as (_ & Hok).
  destruct (Hok H1) as (t & _ & -> & ->). reflexivity.
Defined.

Lemma C9_token_roundtrip_witness :
  clock with_alice < clock with_alice + ACCESS_TOKEN_EXPIRE
  ∧ clock with_alice + ACCESS_TOKEN_EXPIRE < clock much_later
  ∧ create_access_token SECRET_KEY sign ACCESS_TOKEN_EXPIRE "alice"
      with_alice = (Return alice_token, with_alice)
  ∧ verify_token SECRET_KEY sign alice_token with_alice
    = (Return "alice", with_alice)
  ∧ verify_token SECRET_KEY sign alice_token much_later
    = (Raise credentials_exception, much_later).
Proof.
  assert (H1 : clock with_alice < clock with_alice + ACCESS_TOKEN_EXPIRE)
    by (vm_compute; reflexivity).
  assert (H2 : clock with_alice + ACCESS_TOKEN_EXPIRE < clock much_later)
    by (vm_compute; reflexivity).
  split; [exact H1|]. split; [exact H2|].
  destruct (C9_token_roundtrip SECRET_KEY sign ACCESS_TOKEN_EXPIRE "alice"
              with_alice with_alice) as (t & Hissue & Hbefore & _).
  destruct (C9_token_roundtrip SECRET_KEY sign ACCESS_TOKEN_EXPIRE "alice"
              with_alice much_later) as (t' & Hissue' & _ & Hafter).
  assert (Ht : t = alice_token).
  { vm_compute in Hissue. by injection Hissue as <-. }
  assert (Ht' : t' = alice_token).
  { vm_compute in Hissue'. by injection Hissue' as <-. }
  subst t t'.
  split; [exact Hissue|]. split; [exact (Hbefore H1)|].
  exact (proj1 (Hafter H2)).
Defined.

Lemma C10_falsy_filters_witness :
  truthy five = true
  ∧ sent (get_products URL ok float_repr (Some EmptyString) (Some five)
            started).2
    = [price_request URL float_repr five].
Proof.
  split; [reflexivity|].
  destruct (C10_falsy_filters_are_absent URL ok float_repr five false
              (Some five) started eq_refl) as (_ & _ & Hprice & _).
  exact Hprice.
Defined.

(** *** Further properties *)

Abbreviation crashes :=
  (fun (_ : list Request) (_ : Request) =>
     @Raise Response (Exception "boom")).
Abbreviation garbled :=
  (answers 200 "OK" (Raise (RequestException "Expecting value"))).
Abbreviation bob :=
  {| uc_username := "bob"; uc_email := "bob@example.com";
     uc_password := "builder" |}.

Lemma X1_local_routes_witness :
  is_local_route (POST_token "alice" "guess") = true
  ∧ sent (serve_with ok (login_of None "alice" "guess") with_alice).2
    = sent with_alice.
Proof.
  split; [reflexivity|].
  apply (X1_local_routes_make_no_upstream_call URL ok float_repr
           get_password_hash verify_password SECRET_KEY sign
           ACCESS_TOKEN_EXPIRE
           ProductResponse_model (login_of None "alice" "guess") with_alice).
  reflexivity.
Defined.

Lemma X4_login_witness :
  http_status
    (serve_with ok (login_of None "alice" "guess") with_alice).1 ≠ 200
  ∧ (serve_with ok (login_of None "alice" "guess") with_alice).1
    = bad_login.
Proof.
  assert (H1 : http_status
            (serve_with ok (login_of None "alice" "guess") with_alice).1
            ≠ 200) by (vm_compute; discriminate).
  split; [exact H1|].
  exact (proj2 (X4_login_is_read_only_and_failure_uniform URL ok float_repr
                  get_password_hash verify_password SECRET_KEY sign
                  ACCESS_TOKEN_EXPIRE
                  ProductResponse_model None "alice" "guess" with_alice) H1).
Defined.

Lemma X5_register_then_login_witness :
  users_db started !! uc_username alice = None
  ∧ verify_password (uc_password alice)
      (get_password_hash (uc_password alice)) = true
  ∧ exists t,
      (serve_with ok (login_of None "alice" "wonderland")
         (serve_with ok (registration_of None alice) started).2).1
      = {| http_status := 200;
           http_body := TokenBody {| access_token := t;
                                     token_type := "bearer" |} |}.
Proof.
  assert (H1 : users_db started !! uc_username alice = None)
    by reflexivity.
  assert (H2 : verify_password (uc_password alice)
                 (get_password_hash (uc_password alice)) = true)
    by reflexivity.
  split; [exact H1|]. split; [exact H2|].
  exact (proj1 (X5_register_then_login URL ok float_repr get_password_hash
                  verify_password SECRET_KEY sign ACCESS_TOKEN_EXPIRE
                  ProductResponse_model
                  alice None None started H1 H2)).
Defined.

Lemma X6_registrations_commute_witness :
  uc_username alice ≠ uc_username bob
  ∧ users_db (register_all get_password_hash [alice; bob] started).2
    = users_db (register_all get_password_hash [bob; alice] started).2.
Proof.
  assert (H1 : uc_username alice ≠ uc_username bob) by discriminate.
  split; [exact H1|].
  exact (proj2 (proj2 (X6_registrations_commute get_password_hash alice bob
                         started H1))).
Defined.

Lemma X7_store_witness :
  users_db started = ∅
  ∧ is_Some
      (users_db
         (serve_all URL ok float_repr get_password_hash verify_password
            SECRET_KEY sign ACCESS_TOKEN_EXPIRE ProductResponse_model
            [registration_of None alice; login_of None "alice" "guess"]
            started).2 !! "alice").
Proof.
  split; [reflexivity|].
  apply (proj2 (X7_store_holds_the_registrations URL ok float_repr
                  get_password_hash verify_password SECRET_KEY sign
                  ACCESS_TOKEN_EXPIRE ProductResponse_model
                  [registration_of None alice;
                   login_of None "alice" "guess"]
                  started eq_refl) alice).
  apply list_elem_of_here.
Defined.

Lemma X8_other_exceptions_witness :
  is_product_route (GET_products None None) = true
  ∧ (handled_with crashes (GET_products None None) alice_row started).1
    = internal_error.
Proof.
  split; [reflexivity|].
  exact (f_equal fst
           (X8_other_exceptions_are_not_caught URL crashes float_repr
              get_password_hash verify_password SECRET_KEY sign
              ACCESS_TOKEN_EXPIRE
              ProductResponse_model (GET_products None None) alice_row
              started "boom" eq_refl eq_refl)).
Defined.

Lemma X9_undecodable_body_witness :
  ~ 400 <= 200 < 600
  ∧ (handled_with garbled (GET_products_id 3) alice_row started).1
    = unavailable "Expecting value".
Proof.
  assert (H1 : ~ 400 <= 200 < 600) by lia.
  split; [exact H1|].
  destruct (X9_undecodable_body URL garbled float_repr get_password_hash
              verify_password SECRET_KEY sign ACCESS_TOKEN_EXPIRE
              ProductResponse_model
              (GET_products_id 3) alice_row started
              {| status_code := 200; reason := "OK";
                 resp_url := "http://localhost:8081/api/products/3";
                 resp_json := Raise (RequestException "Expecting value") |}
              (RequestException "Expecting value")
              eq_refl eq_refl H1 eq_refl) as [_ Hother].
  exact (proj1 (Hother eq_refl "Expecting value") eq_refl).
Defined.

Lemma X10_not_found_witness :
  route_product_id (DELETE_products_id 7) = Some 7
  ∧ (handled_with not_found (DELETE_products_id 7) alice_row started).1
    = {| http_status := 404;
         http_body := DetailBody "Product with ID 7 not found" |}.
Proof.
  split; [reflexivity|].
  exact (X10_not_found_names_the_product URL not_found float_repr
           get_password_hash verify_password SECRET_KEY sign
           ACCESS_TOKEN_EXPIRE
           ProductResponse_model (DELETE_products_id 7) 7 alice_row started
           {| status_code := 404; reason := "Not Found";
              resp_url := "http://localhost:8081/api/products/7";
              resp_json := Return (JStr "no such product") |}
           eq_refl eq_refl eq_refl).
Defined.


Lemma X12_distinct_ids_witness :
  3 ≠ 4
  ∧ sent (get_product URL ok 3 started).2
    ≠ sent (get_product URL ok 4 started).2.
Proof.
  assert (H1 : 3 ≠ 4) by discriminate.
  split; [exact H1|].
  exact (proj1 (X12_distinct_ids_distinct_calls URL ok 3 4 started H1)).
Defined.

End examples.
